(** * Tatlin: storage layer and scene, embedded in Rocq

    The development follows [tatlin/libtatlin/storage.py] and
    [tatlin/lib/gl/scene.py].  Python values are embedded shallowly:
    - [str] as [string] (ASCII paths; [str.lower] acts on [A-Z]),
    - [int] indices as [Z],
    - exceptions as the inductive type [exn], a call that may raise as a
      value of [result],
    - numbers through small interfaces ([PyNum], [PyMath], [PyFormat]) with
      an IEEE binary64 instance ([float], Python floats), an instance in
      which a number is a Python float or a numpy scalar ([Numpy.t]) and
      an exact instance ([R]). *)

From Stdlib Require Import ZArith List String Ascii Bool Lia.
From Stdlib Require Import Floats.
From Stdlib Require Import DecimalString.
From Stdlib Require Import Reals Lra.
Import ListNotations.

Local Open Scope string_scope.
Local Open Scope Z_scope.

(** ** Exceptions and results *)

(** The exception classes the two modules can raise or let through.  The
    payload of a message-carrying exception is [str(e)]. *)
Inductive exn : Type :=
| ModelFileError (msg : string)
| GcodeParserError (msg : string)
| StlParseError (msg : string)
| AssertionError
| IndexError
| KeyError (key : string)
| AttributeError (name : string)
| ZeroDivisionError
| OverflowError
| ValueError
| OSError (msg : string)
| GeometryError
| TypeError.

Inductive result (A : Type) : Type :=
| Ok (a : A)
| Raise (e : exn).
Arguments Ok {A} a.
Arguments Raise {A} e.

Definition bind {A B : Type} (r : result A) (k : A -> result B) : result B :=
  match r with
  | Ok a => k a
  | Raise e => Raise e
  end.

Notation "x <- r ;; k" := (bind r (fun x => k))
  (at level 61, r at next level, right associativity).


(** ** Python string operations used by the storage layer *)

Module PyStr.

Definition is_upper (c : ascii) : bool :=
  let n := N_of_ascii c in (65 <=? n)%N && (n <=? 90)%N.

Definition lower_char (c : ascii) : ascii :=
  if is_upper c then ascii_of_N (N_of_ascii c + 32) else c.

(** [s.lower()] *)
Fixpoint lower (s : string) : string :=
  match s with
  | EmptyString => EmptyString
  | String c r => String (lower_char c) (lower r)
  end.

Definition len (s : string) : Z := Z.of_nat (String.length s).

(** [s.rfind(c)] for a one-character needle: the highest index holding
    [c], or [-1].  [i] is the index of the head of [s]. *)
Fixpoint rfind_from (c : ascii) (s : string) (i : Z) : Z :=
  match s with
  | EmptyString => -1
  | String a r =>
      let k := rfind_from c r (i + 1) in
      if 0 <=? k then k else if Ascii.eqb a c then i else -1
  end.

Definition rfind (c : ascii) (s : string) : Z := rfind_from c s 0.

(** [s[i:]] for [0 <= i] *)
Definition slice_from (i : Z) (s : string) : string :=
  String.substring (Z.to_nat i) (String.length s - Z.to_nat i) s.

(** [s[:i]] for [0 <= i] *)
Definition slice_to (i : Z) (s : string) : string :=
  String.substring 0 (Nat.min (Z.to_nat i) (String.length s)) s.

(** [s[i:i+1]] for [0 <= i] *)
Definition slice1 (i : Z) (s : string) : string :=
  match String.get (Z.to_nat i) s with
  | Some c => String c EmptyString
  | None => EmptyString
  end.

(** [sep.join(parts)] *)
Definition join (sep : string) (parts : list string) : string :=
  String.concat sep parts.

(** [x in [..]] on strings *)
Definition mem (x : string) (l : list string) : bool :=
  existsb (String.eqb x) l.

(** [c in s] for a character [c] *)
Fixpoint contains (c : ascii) (s : string) : bool :=
  match s with
  | EmptyString => false
  | String a r => Ascii.eqb a c || contains c r
  end.

(** Every character of [s] is [c]. *)
Fixpoint only (c : ascii) (s : string) : bool :=
  match s with
  | EmptyString => true
  | String a r => Ascii.eqb a c && only c r
  end.

(** [s.endswith(suffix)] *)
Definition endswith (s suffix : string) : bool :=
  String.eqb (slice_from (len s - len suffix) s) suffix
  && (len suffix <=? len s).

End PyStr.

(** ** [os.path] (posixpath) *)

Module OsPath.
Import PyStr.

Definition sep : ascii := "/"%char.
Definition extsep : ascii := "."%char.

(** [posixpath.basename]: [i = p.rfind(sep) + 1; return p[i:]] *)
Definition basename (p : string) : string :=
  let i := rfind sep p + 1 in
  slice_from i p.

(** [posixpath.dirname]: the head up to the last separator, with trailing
    separators removed unless the head consists of separators only. *)
Fixpoint rstrip_sep_rev (r : list ascii) : list ascii :=
  match r with
  | c :: r' => if Ascii.eqb c sep then rstrip_sep_rev r' else r
  | [] => []
  end.

Definition all_sep (s : string) : bool :=
  forallb (fun c => Ascii.eqb c sep) (list_ascii_of_string s).

Definition dirname (p : string) : string :=
  let i := rfind sep p + 1 in
  let head := slice_to i p in
  if negb (String.eqb head "") && negb (all_sep head)
  then string_of_list_ascii
         (rev (rstrip_sep_rev (rev (list_ascii_of_string head))))
  else head.

(** The path of the file [name] in the directory [dir], or [name] alone. *)
Definition in_dir (dir : option string) (name : string) : string :=
  match dir with
  | Some d => d ++ String sep name
  | None => name
  end.

(** The [while filenameIndex < dotIndex] loop of [genericpath._splitext],
    run for at most [n] iterations. *)
Fixpoint splitext_loop (n : nat) (p : string) (dotIndex filenameIndex : Z)
  : option (string * string) :=
  match n with
  | O => None
  | S n' =>
      if filenameIndex <? dotIndex then
        if negb (String.eqb (slice1 filenameIndex p) (String extsep ""))
        then Some (slice_to dotIndex p, slice_from dotIndex p)
        else splitext_loop n' p dotIndex (filenameIndex + 1)
      else None
  end.

(** [posixpath.splitext], that is [genericpath._splitext(p, '/', None, '.')] *)
Definition splitext (p : string) : string * string :=
  let sepIndex := rfind sep p in
  let dotIndex := rfind extsep p in
  if sepIndex <? dotIndex then
    let filenameIndex := sepIndex + 1 in
    match splitext_loop (Z.to_nat (dotIndex - filenameIndex)) p
                        dotIndex filenameIndex with
    | Some r => r
    | None => (p, "")
    end
  else (p, "").

End OsPath.

(** ** Numbers *)

(** Python's arithmetic on the numbers the program handles.  The fields are
    the raw operations; the exceptions Python adds on top of them are
    written out in [truediv] and [math_sqrt] below.  An [int] (a literal, a
    cursor coordinate) enters through [of_Z].  [numpy_scalar x] tells
    whether [x] is a numpy scalar rather than a Python [float] or [int]:
    the mesh data come from numpy arrays (the unit test compares them with
    [numpy.array]), and numpy divides by zero where Python raises. *)
Class PyNum (F : Type) : Type := {
  numpy_scalar : F -> bool;
  of_Z : Z -> F;
  fadd : F -> F -> F;
  fsub : F -> F -> F;
  fmul : F -> F -> F;
  fdiv : F -> F -> F;
  fneg : F -> F;
  feqb : F -> F -> bool;
  fltb : F -> F -> bool;
  fleb : F -> F -> bool;
  fsqrt : F -> F
}.

(** The functions of the C math library behind [**], [math.sin],
    [math.atan2], and the constant [math.pi]. *)
Class PyMath (F : Type) : Type := {
  pi : F;
  py_sq : F -> result F;          (* [x ** 2]: OverflowError on overflow *)
  m_sin : F -> result F;          (* [math.sin]: ValueError on an infinity *)
  m_atan2 : F -> F -> F           (* [math.atan2] *)
}.

(** ["%.6f" % x] *)
Class PyFormat (F : Type) : Type := {
  fmt_6f : F -> string
}.

Section PyArith.
Context {F : Type} {num : PyNum F}.

(** [a / b].  Between two Python numbers a divisor that compares equal to
    zero raises ZeroDivisionError.  When one of the operands is a numpy
    scalar the division is numpy's: it gives an infinity or a nan (and a
    RuntimeWarning), and the call goes on. *)
Definition truediv (a b : F) : result F :=
  if feqb b (of_Z 0) then
    if numpy_scalar a || numpy_scalar b then Ok (fdiv a b)
    else Raise ZeroDivisionError
  else Ok (fdiv a b).

(** [math.sqrt]: ValueError on a negative argument. *)
Definition math_sqrt (x : F) : result F :=
  if fltb x (of_Z 0) then Raise ValueError else Ok (fsqrt x).

Context {mth : PyMath F}.

(** [math.degrees(x)] is [x * (180.0 / pi)] *)
Definition math_degrees (x : F) : F := fmul x (fdiv (of_Z 180) pi).

(** [math.radians(x)] is [x * (pi / 180.0)] *)
Definition math_radians (x : F) : F := fmul x (fdiv pi (of_Z 180)).

End PyArith.

Definition vec3 (F : Type) : Type := (F * F * F)%type.

(** ** IEEE binary64 numbers: the [float] instance *)

Module Float64.

Definition of_Z (z : Z) : float :=
  SF2Prim (binary_normalize prec emax z 0 false).

(** The integer nearest to [num / den], ties to even ([den > 0]). *)
Definition round_half_even (num den : Z) : Z :=
  let q := num / den in
  let r := num mod den in
  match 2 * r ?= den with
  | Lt => q
  | Gt => q + 1
  | Eq => if Z.even q then q else q + 1
  end.

Definition digits (n : Z) : string :=
  NilZero.string_of_uint (N.to_uint (Z.to_N n)).

(** The six digits after the point: [r] zero-padded to width six. *)
Definition frac6 (r : Z) : string :=
  match digits (1000000 + r) with
  | String _ d => d
  | EmptyString => EmptyString
  end.

(** ["%.6f"] on the exact value [m * 2^e], correctly rounded. *)
Definition fixed6 (m : positive) (e : Z) : string :=
  let n := if 0 <=? e
           then Zpos m * 2 ^ e * 1000000
           else round_half_even (Zpos m * 1000000) (2 ^ (- e)) in
  digits (n / 1000000) ++ "." ++ frac6 (n mod 1000000).

Definition format_6f (x : float) : string :=
  match Prim2SF x with
  | S754_nan => "nan"
  | S754_infinity s => if s then "-inf" else "inf"
  | S754_zero s => if s then "-0.000000" else "0.000000"
  | S754_finite s m e => (if s then "-" else "") ++ fixed6 m e
  end.

End Float64.

(** Python [float]s. *)
#[export] Instance float_num : PyNum float := {
  numpy_scalar := fun _ => false;
  of_Z := Float64.of_Z;
  fadd := PrimFloat.add;
  fsub := PrimFloat.sub;
  fmul := PrimFloat.mul;
  fdiv := PrimFloat.div;
  fneg := PrimFloat.opp;
  feqb := PrimFloat.eqb;
  fltb := PrimFloat.ltb;
  fleb := PrimFloat.leb;
  fsqrt := PrimFloat.sqrt
}.

#[export] Instance float_format : PyFormat float := {
  fmt_6f := Float64.format_6f
}.

(** ** Python floats and numpy scalars side by side *)

Module Numpy.

(** A Python [float] or a [numpy.float64], both holding a binary64 value. *)
Inductive t : Type :=
| Py (x : float)
| Np (x : float).

Definition value (a : t) : float :=
  match a with
  | Py x | Np x => x
  end.

Definition is_np (a : t) : bool :=
  match a with
  | Np _ => true
  | Py _ => false
  end.

(** An operation on two numbers gives a numpy scalar as soon as one of
    them is one. *)
Definition lift2 (f : float -> float -> float) (a b : t) : t :=
  if is_np a || is_np b then Np (f (value a) (value b))
  else Py (f (value a) (value b)).

Definition lift1 (f : float -> float) (a : t) : t :=
  match a with
  | Py x => Py (f x)
  | Np x => Np (f x)
  end.

End Numpy.

(** [fsqrt] is [math.sqrt], which returns a Python [float]. *)
#[export] Instance numpy_num : PyNum Numpy.t := {
  numpy_scalar := Numpy.is_np;
  of_Z := fun z => Numpy.Py (Float64.of_Z z);
  fadd := Numpy.lift2 PrimFloat.add;
  fsub := Numpy.lift2 PrimFloat.sub;
  fmul := Numpy.lift2 PrimFloat.mul;
  fdiv := Numpy.lift2 PrimFloat.div;
  fneg := Numpy.lift1 PrimFloat.opp;
  feqb := fun a b => PrimFloat.eqb (Numpy.value a) (Numpy.value b);
  fltb := fun a b => PrimFloat.ltb (Numpy.value a) (Numpy.value b);
  fleb := fun a b => PrimFloat.leb (Numpy.value a) (Numpy.value b);
  fsqrt := fun a => Numpy.Py (PrimFloat.sqrt (Numpy.value a))
}.

(** ** Python sequences *)

Module PySeq.

Definition len {A : Type} (l : list A) : Z := Z.of_nat (List.length l).

(** [range(start, stop, step)] for a positive [step] *)
Definition range (start stop step : Z) : list Z :=
  map (fun k => start + step * Z.of_nat k)
      (seq 0 (Z.to_nat ((stop - start + step - 1) / step))).

(** [l[i:j]] for [0 <= i]: the bounds are clamped to the sequence. *)
Definition slice {A : Type} (l : list A) (i j : Z) : list A :=
  firstn (Z.to_nat (j - i)) (skipn (Z.to_nat i) l).

(** [l[i]]: negative indices count from the end, IndexError outside. *)
Definition getitem {A : Type} (l : list A) (i : Z) : result A :=
  let j := if i <? 0 then i + len l else i in
  if (0 <=? j) && (j <? len l) then
    match nth_error l (Z.to_nat j) with
    | Some x => Ok x
    | None => Raise IndexError
    end
  else Raise IndexError.

(** A list comprehension whose element expression may raise: elements are
    evaluated left to right and the first exception ends the evaluation. *)
Fixpoint comprehension {A B : Type} (f : A -> result B) (l : list A)
  : result (list B) :=
  match l with
  | [] => Ok []
  | a :: r =>
      b <- f a ;;
      bs <- comprehension f r ;;
      Ok (b :: bs)
  end.

End PySeq.

(** ** The mesh data model *)

Module Model.

Inductive axis : Type := AXIS_X | AXIS_Y | AXIS_Z.

(** Modelled from the spec: the attributes of a model object
    ([tatlin/lib/gl/model.py] and [stlmodel.py] are not part of the
    sources).  Section 3 of the specification lists the vertex and normal
    buffers, the offset, the scaling factor, the per-axis rotation, and the
    [modified] and [initialized] flags; [num_layers_to_draw] and
    [arrows_enabled] are the attributes [Scene] assigns. *)
Record t (F : Type) : Type := mk {
  vertices : list (vec3 F);
  normals : list (vec3 F);
  offset_x : F;
  offset_y : F;
  offset_z : F;
  scaling_factor : F;
  rotation : vec3 F;
  modified : bool;
  initialized : bool;
  num_layers_to_draw : Z;
  arrows_enabled : bool
}.
Arguments mk {F}.
Arguments vertices {F}.
Arguments normals {F}.
Arguments offset_x {F}.
Arguments offset_y {F}.
Arguments offset_z {F}.
Arguments scaling_factor {F}.
Arguments rotation {F}.
Arguments modified {F}.
Arguments initialized {F}.
Arguments num_layers_to_draw {F}.
Arguments arrows_enabled {F}.

Definition set_modified {F} (b : bool) (m : t F) : t F :=
  mk (vertices m) (normals m) (offset_x m) (offset_y m) (offset_z m)
     (scaling_factor m) (rotation m) b (initialized m)
     (num_layers_to_draw m) (arrows_enabled m).

Definition set_offset {F} (x y z : F) (m : t F) : t F :=
  mk (vertices m) (normals m) x y z
     (scaling_factor m) (rotation m) (modified m) (initialized m)
     (num_layers_to_draw m) (arrows_enabled m).

Definition set_num_layers_to_draw {F} (n : Z) (m : t F) : t F :=
  mk (vertices m) (normals m) (offset_x m) (offset_y m) (offset_z m)
     (scaling_factor m) (rotation m) (modified m) (initialized m)
     n (arrows_enabled m).

Definition set_arrows_enabled {F} (b : bool) (m : t F) : t F :=
  mk (vertices m) (normals m) (offset_x m) (offset_y m) (offset_z m)
     (scaling_factor m) (rotation m) (modified m) (initialized m)
     (num_layers_to_draw m) b.

End Model.

(** ** The file system seen by [open] *)

Module FileSystem.

(** The files are keyed by the path as it is spelled: two spellings of
    one file ("part.stl" and "./part.stl") are not related here, so the
    statements below are about the path a method is given and say nothing
    about other paths. *)
Record FS : Type := mk {
  content : string -> option string;   (* the files that exist *)
  writable : string -> bool            (* [open(p, "w")] succeeds *)
}.

(** [open(p, "r")] or [open(p, "rb")], read whole: OSError when absent. *)
Definition open_r (fs : FS) (p : string) : result string :=
  match content fs p with
  | Some c => Ok c
  | None => Raise (OSError p)
  end.

Definition put (fs : FS) (p : string) (c : string) : FS :=
  mk (fun q => if String.eqb q p then Some c else content fs q)
     (writable fs).

(** A file object opened for writing: the path it was opened at and the
    text written to it that has not reached the file yet. *)
Record file : Type := mk_file {
  file_name : string;
  file_buffer : string
}.

(** [open(p, "w")]: truncates the file, OSError when it cannot be opened. *)
Definition open_w (fs : FS) (p : string) : result (FS * file) :=
  if writable fs p then Ok (put fs p "", mk_file p "")
  else Raise (OSError p).

Definition newline : string := String (ascii_of_nat 10) EmptyString.

(** [print(s, file=f)]: the text and a newline go to the buffer of the file
    object, not to the file. *)
Definition print (f : file) (s : string) : file :=
  mk_file (file_name f) (file_buffer f ++ s ++ newline).

(** [f.close()]: the buffered text reaches the file, which [open] had
    truncated.  A buffer that grew beyond its size was handed over in
    parts before; the file holds the same text after [close]. *)
Definition close (fs : FS) (f : file) : FS :=
  put fs (file_name f) (file_buffer f).

(** The text made of the given lines, each ended by a newline. *)
Definition lines (l : list string) : string :=
  String.concat "" (map (fun s => s ++ newline) l).

(** [os.path.getsize] *)
Definition getsize (fs : FS) (p : string) : result Z :=
  match content fs p with
  | Some c => Ok (PyStr.len c)
  | None => Raise (OSError p)
  end.

End FileSystem.

(** ** The external parsers *)

(** [GcodeParser], [StlParser] and the two model classes are imported by
    [storage.py] from modules outside the sources; their behaviour is a
    parameter.  The methods take the content of the opened file. *)
Class Parsers : Type := {
  Callback : Type;
  GcodeParser : Type;
  GcodeData : Type;
  GcodeModel : Type;
  StlParser : Type;
  StlData : Type;
  StlModel : Type;
  GcodeParser_new : GcodeParser;
  GcodeParser_load : GcodeParser -> string -> result GcodeParser;
  GcodeParser_parse : GcodeParser -> option Callback -> result GcodeData;
  GcodeModel_new : GcodeModel;
  StlParser_new : string -> StlParser;
  StlParser_load : StlParser -> string -> result StlParser;
  StlParser_parse : StlParser -> option Callback -> result StlData;
  StlModel_new : StlModel
}.

(** ** [tatlin/libtatlin/storage.py] *)

Module Storage.
Import PyStr PySeq FileSystem.

(** [class ModelFile]; the four cached attributes are [None] until the
    matching property is first read. *)
Record ModelFile : Type := mk {
  _path : string;
  _ftype : option string;
  _dirname : option string;
  _basename : option string;
  _extension : option string;
  _size : option Z
}.

Definition _reset_file_attributes (self : ModelFile) : ModelFile :=
  mk (_path self) (_ftype self) None None None None.

(** [ModelFile.__init__(path, ftype=None)] *)
Definition init (path : string) (ftype : option string) : ModelFile :=
  _reset_file_attributes (mk path ftype None None None None).

Definition path (self : ModelFile) : string := _path self.

(** [path.setter] *)
Definition set_path (self : ModelFile) (p : string) : ModelFile :=
  let self := _reset_file_attributes self in
  mk p (_ftype self) (_dirname self) (_basename self) (_extension self)
     (_size self).

(** The cached properties return their value and the object with the
    cache filled. *)
Definition dirname (self : ModelFile) : string * ModelFile :=
  match _dirname self with
  | Some d => (d, self)
  | None =>
      let d := OsPath.dirname (path self) in
      (d, mk (_path self) (_ftype self) (Some d) (_basename self)
             (_extension self) (_size self))
  end.

Definition basename (self : ModelFile) : string * ModelFile :=
  match _basename self with
  | Some b => (b, self)
  | None =>
      let b := OsPath.basename (path self) in
      (b, mk (_path self) (_ftype self) (_dirname self) (Some b)
             (_extension self) (_size self))
  end.

Definition extension (self : ModelFile) : string * ModelFile :=
  match _extension self with
  | Some e => (e, self)
  | None =>
      let '(b, self) := basename self in
      let e := lower (snd (OsPath.splitext b)) in
      (e, mk (_path self) (_ftype self) (_dirname self) (_basename self)
             (Some e) (_size self))
  end.

(** What [extension] computes for an object whose cache is empty. *)
Definition ext_of (path : string) : string :=
  lower (snd (OsPath.splitext (OsPath.basename path))).

(** [filetype]: "Determine filetype based on extension." *)
Definition filetype (self : ModelFile) : result string * ModelFile :=
  match _ftype self with
  | Some t => (Ok t, self)
  | None =>
      let '(e, self) := extension self in
      if negb (mem e [".gcode"; ".nc"; ".stl"]) then
        let '(e, self) := extension self in
        (Raise (ModelFileError ("Unsupported file extension: " ++ e)), self)
      else
        let '(e, self) := extension self in
        (Ok (if mem e [".gcode"; ".nc"] then "gcode" else "stl"), self)
  end.

Definition size (fs : FS) (self : ModelFile) : result Z * ModelFile :=
  match _size self with
  | Some n => (Ok n, self)
  | None =>
      match getsize fs (path self) with
      | Ok n => (Ok n, mk (_path self) (_ftype self) (_dirname self)
                          (_basename self) (_extension self) (Some n))
      | Raise e => (Raise e, self)
      end
  end.

Section Read.
Context {P : Parsers}.

(** What a loader returns: a fresh model and the parsed data. *)
Inductive loaded : Type :=
| LoadedGcode (m : GcodeModel) (data : GcodeData)
| LoadedStl (m : StlModel) (data : StlData).

Definition _load_gcode_model (fs : FS) (self : ModelFile)
           (callback : option Callback) : result loaded :=
  let parser := GcodeParser_new in
  gcodefile <- open_r fs (path self) ;;
  parser <- GcodeParser_load parser gcodefile ;;
  match GcodeParser_parse parser callback with
  | Ok data => Ok (LoadedGcode GcodeModel_new data)
  | Raise (GcodeParserError e) =>
      (* rethrow as generic file error *)
      Raise (ModelFileError ("Parsing error: " ++ e))
  | Raise e => Raise e
  end.

Definition _load_stl_model (fs : FS) (self : ModelFile)
           (callback : option Callback) : result loaded :=
  stlfile <- open_r fs (path self) ;;
  let parser := StlParser_new stlfile in
  parser <- StlParser_load parser stlfile ;;
  match StlParser_parse parser callback with
  | Ok data => Ok (LoadedStl StlModel_new data)
  | Raise (StlParseError e) =>
      (* rethrow as generic file error *)
      Raise (ModelFileError ("Parsing error: " ++ e))
  | Raise e => Raise e
  end.

(** [self._loaders[key]] *)
Definition _loaders (key : string)
  : result (FS -> ModelFile -> option Callback -> result loaded) :=
  if String.eqb key "gcode" then Ok _load_gcode_model
  else if String.eqb key "stl" then Ok _load_stl_model
  else Raise (KeyError key).

Definition read (fs : FS) (self : ModelFile) (callback : option Callback)
  : result loaded * ModelFile :=
  let '(ft, self) := filetype self in
  (key <- ft ;;
   loader <- _loaders key ;;
   loader fs self callback, self).

End Read.

Section Write.
Context {F : Type} {fmt : PyFormat F}.

(** ["vertex %.6f %.6f %.6f" % (v[0], v[1], v[2])] *)
Definition format_vertex (v : vec3 F) : string :=
  let '(v0, v1, v2) := v in
  "vertex " ++ fmt_6f v0 ++ " " ++ fmt_6f v1 ++ " " ++ fmt_6f v2.

(** The template of [_format_facet], filled in. *)
Definition _format_facet (vertices : list (vec3 F)) (normal : vec3 F)
  : string :=
  let '(n0, n1, n2) := normal in
  "facet normal " ++ fmt_6f n0 ++ " " ++ fmt_6f n1 ++ " " ++ fmt_6f n2
    ++ newline
    ++ "  outer loop" ++ newline
    ++ "    " ++ join newline (map format_vertex vertices) ++ newline
    ++ "  endloop" ++ newline
    ++ "endfacet" ++ newline.

(** The list comprehension of [write_stl]. *)
Definition facets (vertices normals : list (vec3 F))
  : result (list string) :=
  comprehension
    (fun i => n <- getitem normals i ;;
              Ok (_format_facet (slice vertices i (i + 3)) n))
    (range 0 (len vertices) 3).

(** The block written for the vertices from index [i] on, when
    [normals[i]] exists. *)
Definition block_at (vertices normals : list (vec3 F)) (i : Z) : string :=
  match getitem normals i with
  | Ok n => _format_facet (slice vertices i (i + 3)) n
  | Raise _ => ""
  end.

Definition write_stl (fs : FS) (self : ModelFile) (stl_model : Model.t F)
  : result unit * FS * ModelFile :=
  let '(ft, self) := filetype self in
  match ft with
  | Raise e => (Raise e, fs, self)
  | Ok ft =>
      if negb (String.eqb ft "stl") then (Raise AssertionError, fs, self)
      else
        let vertices := Model.vertices stl_model in
        let normals := Model.normals stl_model in
        match open_w fs (path self) with
        | Raise e => (Raise e, fs, self)
        | Ok (fs, f) =>
            let f := print f "solid" in
            match facets vertices normals with
            | Raise e =>
                (* [f.close()] is not reached: the file is left as [open]
                   made it, empty, with the line [solid] in the buffer of
                   the abandoned file object *)
                (Raise e, fs, self)
            | Ok blocks =>
                let f := print f (join "" blocks) in
                let f := print f "endsolid" in
                (Ok tt, close fs f, self)
            end
        end
  end.

End Write.

End Storage.

(** ** Views *)

Module View.

(** Modelled from the spec: the camera state of a view
    ([tatlin/lib/gl/views.py] is not part of the sources).  Section 3 of
    the specification lists the two angles, the position, the zoom factor
    and the [ortho] toggle guarded by [supports_ortho]. *)
Record t (F : Type) : Type := mk {
  x : F;
  y : F;
  z : F;
  zoom_factor : F;
  azimuth : F;
  elevation : F;
  supports_ortho : bool;
  ortho : bool
}.
Arguments mk {F}.
Arguments x {F}.
Arguments y {F}.
Arguments z {F}.
Arguments zoom_factor {F}.
Arguments azimuth {F}.
Arguments elevation {F}.
Arguments supports_ortho {F}.
Arguments ortho {F}.

Definition set_ortho {F} (b : bool) (v : t F) : t F :=
  mk (x v) (y v) (z v) (zoom_factor v) (azimuth v) (elevation v)
     (supports_ortho v) b.

Definition set_angles {F} (a e : F) (v : t F) : t F :=
  mk (x v) (y v) (z v) (zoom_factor v) a e (supports_ortho v) (ortho v).

End View.

(** The gesture methods of [View2D] and [View3D]: a parameter, their code
    being outside the sources.  [has_offset v] is [hasattr(v, "offset")].
    [begin], [end], [display_transform] and [ui_transform] only issue
    calls to the rendering backend and are not modelled. *)
Class ViewMethods (F : Type) : Type := {
  view_rotate : F -> F -> View.t F -> View.t F;
  view_pan : F -> F -> View.t F -> View.t F;
  view_zoom : F -> F -> View.t F -> View.t F;
  has_offset : View.t F -> bool;
  view_offset : F -> F -> View.t F -> View.t F;
  view_reset_state : View.t F -> View.t F
}.

(** The methods of the model classes that [Scene] calls: a parameter, their
    code being outside the sources.  [model_getattr m name] is
    [getattr(m, name)] for the numeric attributes; [model_bounding_box]
    gives the lower and the upper corner. *)
Class ModelMethods (F : Type) : Type := {
  model_scale : F -> Model.t F -> result (Model.t F);
  model_translate : F -> F -> F -> Model.t F -> result (Model.t F);
  model_rotate_abs : F -> Model.axis -> Model.t F -> result (Model.t F);
  model_init : Model.t F -> result (Model.t F);
  model_getattr : Model.t F -> string -> result F;
  model_bounding_box : Model.t F -> vec3 F * vec3 F;
  model_letter_axis_map : string -> result Model.axis
}.

(** ** [tatlin/lib/gl/scene.py] *)

Module Scene.

(** A reference to a Python object (a model or a supporting actor). *)
Definition ref : Type := nat.

(** Which of the two views owned by the scene [current_view] refers to. *)
Inductive view_ref : Type := view_ortho_ref | view_perspective_ref.

(** The attributes of a [Scene] object.  [model] and [actors] hold
    references; [redraw] records a call of [invalidate()]. *)
Record t (F : Type) : Type := mk {
  model : option ref;
  actors : list ref;
  cursor_x : F;
  cursor_y : F;
  view_ortho : View.t F;
  view_perspective : View.t F;
  current_view : view_ref;
  initialized : bool;
  redraw : bool
}.
Arguments mk {F}.
Arguments model {F}.
Arguments actors {F}.
Arguments cursor_x {F}.
Arguments cursor_y {F}.
Arguments view_ortho {F}.
Arguments view_perspective {F}.
Arguments current_view {F}.
Arguments initialized {F}.
Arguments redraw {F}.

(** The objects the references point to, and the scene. *)
Record world (F : Type) : Type := mk_world {
  heap : ref -> Model.t F;
  scene : t F
}.
Arguments mk_world {F}.
Arguments heap {F}.
Arguments scene {F}.

(** The keyword arguments of one [actor.display(...)] call. *)
Inductive display_args (F : Type) : Type :=
| with_elevation (elevation : F) (mode_ortho mode_2d : bool)
| with_eye_height (eye_height : F) (mode_ortho mode_2d : bool).
Arguments with_elevation {F}.
Arguments with_eye_height {F}.

(** A method body: it runs on the world, returns or raises, and leaves the
    world as it was when it stopped. *)
Definition M (F A : Type) : Type := world F -> result A * world F.

Definition ret {F A} (a : A) : M F A := fun w => (Ok a, w).

Definition raise {F A} (e : exn) : M F A := fun w => (Raise e, w).

Definition bindM {F A B} (m : M F A) (k : A -> M F B) : M F B :=
  fun w =>
    match m w with
    | (Ok a, w') => k a w'
    | (Raise e, w') => (Raise e, w')
    end.

Definition lift {F A} (r : result A) : M F A := fun w => (r, w).

Definition get_scene {F} : M F (t F) := fun w => (Ok (scene w), w).

Definition set_scene {F} (s : t F) : M F unit :=
  fun w => (Ok tt, mk_world (heap w) s).

Definition load {F} (r : ref) : M F (Model.t F) :=
  fun w => (Ok (heap w r), w).

Definition store {F} (r : ref) (m : Model.t F) : M F unit :=
  fun w => (Ok tt,
            mk_world (fun q => if Nat.eqb q r then m else heap w q)
                     (scene w)).

Notation "x <<- m ;; k" := (bindM m (fun x => k))
  (at level 61, m at next level, right associativity).

Notation "m ;;; k" := (bindM m (fun _ => k))
  (at level 61, right associativity).

(** Attribute updates on the scene object. *)
Definition with_model {F} (v : option ref) (s : t F) : t F :=
  mk v (actors s) (cursor_x s) (cursor_y s) (view_ortho s)
     (view_perspective s) (current_view s) (initialized s) (redraw s).

Definition with_actors {F} (v : list ref) (s : t F) : t F :=
  mk (model s) v (cursor_x s) (cursor_y s) (view_ortho s)
     (view_perspective s) (current_view s) (initialized s) (redraw s).

Definition with_cursor {F} (cx cy : F) (s : t F) : t F :=
  mk (model s) (actors s) cx cy (view_ortho s)
     (view_perspective s) (current_view s) (initialized s) (redraw s).

Definition with_view_ortho {F} (v : View.t F) (s : t F) : t F :=
  mk (model s) (actors s) (cursor_x s) (cursor_y s) v
     (view_perspective s) (current_view s) (initialized s) (redraw s).

Definition with_view_perspective {F} (v : View.t F) (s : t F) : t F :=
  mk (model s) (actors s) (cursor_x s) (cursor_y s) (view_ortho s)
     v (current_view s) (initialized s) (redraw s).

Definition with_current_view {F} (v : view_ref) (s : t F) : t F :=
  mk (model s) (actors s) (cursor_x s) (cursor_y s) (view_ortho s)
     (view_perspective s) v (initialized s) (redraw s).

Definition with_initialized {F} (v : bool) (s : t F) : t F :=
  mk (model s) (actors s) (cursor_x s) (cursor_y s) (view_ortho s)
     (view_perspective s) (current_view s) v (redraw s).

Definition with_redraw {F} (v : bool) (s : t F) : t F :=
  mk (model s) (actors s) (cursor_x s) (cursor_y s) (view_ortho s)
     (view_perspective s) (current_view s) (initialized s) v.

(** The view object [self.current_view] refers to. *)
Definition current {F} (s : t F) : View.t F :=
  match current_view s with
  | view_ortho_ref => view_ortho s
  | view_perspective_ref => view_perspective s
  end.

(** A mutation of the object [self.current_view] refers to: it is seen
    through the owning attribute as well. *)
Definition update_current {F} (f : View.t F -> View.t F) (s : t F) : t F :=
  match current_view s with
  | view_ortho_ref => with_view_ortho (f (view_ortho s)) s
  | view_perspective_ref => with_view_perspective (f (view_perspective s)) s
  end.

Definition modify {F} (f : t F -> t F) : M F unit :=
  s <<- get_scene ;; set_scene (f s).

(** [dir(None)]: the attributes [None] has. *)
Definition NoneType_dir : list string :=
  ["__bool__"; "__class__"; "__delattr__"; "__dir__"; "__doc__"; "__eq__";
   "__format__"; "__ge__"; "__getattribute__"; "__getstate__"; "__gt__";
   "__hash__"; "__init__"; "__init_subclass__"; "__le__"; "__lt__";
   "__ne__"; "__new__"; "__reduce__"; "__reduce_ex__"; "__repr__";
   "__setattr__"; "__sizeof__"; "__str__"; "__subclasshook__"].

(** [self.model], about to be used through attribute [name].  While the
    model is [None] the access raises AttributeError for a name [None]
    does not have, as all the names written in the source are.  Only
    [getattr(self.model, dimension)] takes a name from the caller: for an
    attribute of [None] it returns that attribute, and the division it is
    then used in raises TypeError. *)
Definition the_model {F} (name : string) : M F ref :=
  s <<- get_scene ;;
  match model s with
  | Some r => ret r
  | None =>
      if PyStr.mem name NoneType_dir then raise TypeError
      else raise (AttributeError name)
  end.

(** Modelled from the spec: [BaseScene.invalidate()]
    ([tatlin/lib/ui/basescene.py] is not part of the sources) marks the
    scene dirty for redraw. *)
Definition invalidate {F} : M F unit := modify (with_redraw true).

(** [Scene.__init__]; the two views come from [View2D()] and [View3D()]. *)
Definition new {F} `{PyNum F} (view2d view3d : View.t F) : t F :=
  mk None [] (of_Z 0) (of_Z 0) view2d view3d view_perspective_ref
     false false.

Section Methods.
Context {F : Type} {num : PyNum F} {mth : PyMath F} {fmt : PyFormat F}
        {vm : ViewMethods F} {mm : ModelMethods F}.

Definition PAN_SPEED : F := of_Z 25.
Definition ROTATE_SPEED : F := of_Z 25.

Definition add_model (model : ref) : M F unit :=
  modify (with_model (Some model)) ;;;
  modify (fun s => with_actors (actors s ++ [model]) s).

(** "Write model to file." *)
Definition export_to_file (fs : FileSystem.FS)
           (model_file : Storage.ModelFile) (w : world F)
  : result unit * FileSystem.FS * Storage.ModelFile * world F :=
  match model (scene w) with
  | Some r =>
      let '(res, fs, model_file) :=
        Storage.write_stl fs model_file (heap w r) in
      match res with
      | Ok _ =>
          (Ok tt, fs, model_file,
           snd (store r (Model.set_modified false (heap w r)) w))
      | Raise e => (Raise e, fs, model_file, w)
      end
  | None =>
      (* [write_stl(None)]: the assertion runs, then [None.vertices] *)
      let '(ft, model_file) := Storage.filetype model_file in
      match ft with
      | Ok ft =>
          if negb (String.eqb ft "stl")
          then (Raise AssertionError, fs, model_file, w)
          else (Raise (AttributeError "vertices"), fs, model_file, w)
      | Raise e => (Raise e, fs, model_file, w)
      end
  end.

Definition add_supporting_actor (actor : ref) : M F unit :=
  modify (fun s => with_actors (actors s ++ [actor]) s).

Definition clear : M F unit := modify (with_actors []).

(** The loop of [init_actors] over the list it started with. *)
Fixpoint init_actors_loop (l : list ref) : M F unit :=
  match l with
  | [] => ret tt
  | actor :: rest =>
      a <<- load actor ;;
      (if negb (Model.initialized a)
       then a' <<- lift (model_init a) ;; store actor a'
       else ret tt) ;;;
      init_actors_loop rest
  end.

Definition init_actors : M F unit :=
  s <<- get_scene ;; init_actors_loop (actors s).

Definition init : M F unit :=
  init_actors ;;; modify (with_initialized true).

Definition mode_2d (s : t F) : bool :=
  match current_view s with
  | view_ortho_ref => true
  | view_perspective_ref => false
  end.

Definition set_mode_2d (value : bool) : M F unit :=
  modify (with_current_view
            (if value then view_ortho_ref else view_perspective_ref)).

Definition mode_ortho (s : t F) : bool :=
  View.supports_ortho (current s) && View.ortho (current s).

Definition set_mode_ortho (value : bool) : M F unit :=
  s <<- get_scene ;;
  if View.supports_ortho (current s)
  then modify (update_current (View.set_ortho value))
  else ret tt.

(** The four assignments of the perspective branch of [display]. *)
Definition eye_height (v : View.t F) : result F :=
  y <- truediv (View.y v) (View.zoom_factor v) ;;
  let z := View.z v in
  let angle :=
    fsub (fneg (math_degrees (m_atan2 z y))) (View.elevation v) in
  y2 <- py_sq y ;;
  z2 <- py_sq z ;;
  r <- math_sqrt (fadd y2 z2) ;;
  s <- m_sin (math_radians angle) ;;
  Ok (fmul r s).

(** [display(w, h)]: the [actor.display] calls it makes, in order.  The
    calls to the rendering backend around them are not modelled. *)
Definition display (w h : F) : M F (list (ref * display_args F)) :=
  s <<- get_scene ;;
  if mode_ortho s then
    ret (map (fun actor =>
                (actor,
                 with_elevation (fneg (View.elevation (current s)))
                                (mode_ortho s) (mode_2d s)))
             (actors s))
  else
    eye_height <<- lift (eye_height (current s)) ;;
    ret (map (fun actor =>
                (actor,
                 with_eye_height eye_height (mode_ortho s) (mode_2d s)))
             (actors s)).

Definition reshape (w h : F) : M F unit := ret tt.

Definition draw_axes (length : F) : M F unit := ret tt.

Definition button_press (x y : F) : M F unit := modify (with_cursor x y).

(** [delta * speed / 100]; the divisor is the literal 100. *)
Definition speed (delta k : F) : F := fdiv (fmul delta k) (of_Z 100).

Definition button_motion (x y : F) (left middle right : bool) : M F unit :=
  s <<- get_scene ;;
  let delta_x := fsub x (cursor_x s) in
  let delta_y := fsub y (cursor_y s) in
  (if left then
     modify (update_current
               (view_rotate (speed delta_x ROTATE_SPEED)
                            (speed delta_y ROTATE_SPEED)))
   else if middle then
     if has_offset (current s) then
       modify (update_current
                 (view_offset (speed delta_x PAN_SPEED)
                              (speed delta_y PAN_SPEED)))
     else ret tt
   else if right then
     modify (update_current
               (view_pan (speed delta_x PAN_SPEED)
                         (speed delta_y PAN_SPEED)))
   else ret tt) ;;;
  modify (fun s => with_cursor x y s) ;;;
  invalidate.

Definition wheel_scroll (direction : F) : M F unit :=
  let delta_y := of_Z 30 in
  let direction :=
    if fltb direction (of_Z 0) then of_Z (-1) else of_Z 1 in
  let delta_y := fmul direction delta_y in
  modify (update_current (view_zoom (of_Z 0) delta_y)) ;;;
  invalidate.

Definition reset_view (both : bool) : M F unit :=
  if both then
    modify (fun s => with_view_ortho
                             (view_reset_state (view_ortho s)) s) ;;;
    modify (fun s => with_view_perspective
                       (view_reset_state (view_perspective s)) s)
  else modify (update_current view_reset_state).

Definition rotate_view (azimuth elevation : F) : M F unit :=
  s <<- get_scene ;;
  if negb (mode_2d s) then
    modify (update_current (View.set_angles azimuth elevation)) ;;;
    invalidate
  else ret tt.

(** "Display the model in the center of the scene without modifying the
    vertices." *)
Definition view_model_center : M F unit :=
  r <<- the_model "bounding_box" ;;
  m <<- load r ;;
  let '(lower_corner, upper_corner) := model_bounding_box m in
  let '(l0, l1, l2) := lower_corner in
  let '(u0, u1, u2) := upper_corner in
  store r (Model.set_offset (fdiv (fneg (fadd u0 l0)) (of_Z 2))
                            (fdiv (fneg (fadd u1 l1)) (of_Z 2))
                            (fneg l2) m).

(** "Change number of visible layers for Gcode model." *)
Definition change_num_layers (number : Z) : M F unit :=
  r <<- the_model "num_layers_to_draw" ;;
  m <<- load r ;;
  store r (Model.set_num_layers_to_draw number m).

(** [self.model.init()] *)
Definition reinit_model : M F unit :=
  r <<- the_model "init" ;;
  m <<- load r ;;
  m <<- lift (model_init m) ;;
  store r m.

(** The [print] to standard output is not modelled. *)
Definition scale_model (factor : F) : M F unit :=
  r <<- the_model "scale" ;;
  m <<- load r ;;
  m <<- lift (model_scale factor m) ;;
  store r m ;;;
  reinit_model.

(** "Center the model on platform and raise its lowest point to z=0." *)
Definition center_model : M F unit :=
  r <<- the_model "bounding_box" ;;
  m <<- load r ;;
  let '(lower_corner, upper_corner) := model_bounding_box m in
  let '(l0, l1, l2) := lower_corner in
  let '(u0, u1, u2) := upper_corner in
  let offset_x := fdiv (fneg (fadd u0 l0)) (of_Z 2) in
  let offset_y := fdiv (fneg (fadd u1 l1)) (of_Z 2) in
  let offset_z := fneg l2 in
  m <<- lift (model_translate offset_x offset_y offset_z m) ;;
  store r m ;;;
  reinit_model.

Definition change_model_dimension (dimension : string) (value : F)
  : M F unit :=
  r <<- the_model dimension ;;
  m <<- load r ;;
  current_value <<- lift (model_getattr m dimension) ;;
  (* since our scaling is absolute, we have to take current scaling
     factor into account *)
  q <<- lift (truediv value current_value) ;;
  let factor := fmul q (Model.scaling_factor m) in
  scale_model factor.

Definition rotate_model (angle : F) (axis_name : string) : M F unit :=
  axis <<- lift (model_letter_axis_map axis_name) ;;
  r <<- the_model "rotate_abs" ;;
  m <<- load r ;;
  m <<- lift (model_rotate_abs angle axis m) ;;
  store r m ;;;
  reinit_model.

Definition show_arrows (show : bool) : M F unit :=
  r <<- the_model "arrows_enabled" ;;
  m <<- load r ;;
  store r (Model.set_arrows_enabled show m) ;;;
  reinit_model.

(** "Return true when an important model property has been modified." *)
Definition model_modified (w : world F) : bool :=
  match model (scene w) with
  | Some r => Model.modified (heap w r)
  | None => false
  end.

(** One call of a public method or property setter of [Scene]. *)
Inductive op : Type :=
| Add_model (model : ref)
| Export_to_file (fs : FileSystem.FS) (model_file : Storage.ModelFile)
| Add_supporting_actor (actor : ref)
| Clear
| Init
| Init_actors
| Display (w h : F)
| Reshape (w h : F)
| Draw_axes (length : F)
| Button_press (x y : F)
| Button_motion (x y : F) (left middle right : bool)
| Wheel_scroll (direction : F)
| Reset_view (both : bool)
| Set_mode_2d (value : bool)
| Set_mode_ortho (value : bool)
| Rotate_view (azimuth elevation : F)
| View_model_center
| Change_num_layers (number : Z)
| Scale_model (factor : F)
| Center_model
| Change_model_dimension (dimension : string) (value : F)
| Rotate_model (angle : F) (axis_name : string)
| Show_arrows (show : bool).

Definition outcome {A} (r : result A) : result unit :=
  match r with
  | Ok _ => Ok tt
  | Raise e => Raise e
  end.

(** The call runs; whether it returned or raised, the world is left as
    the call made it. *)
Definition run (o : op) (w : world F) : result unit * world F :=
  match o with
  | Add_model m => add_model m w
  | Export_to_file fs mf =>
      let '(r, _, _, w') := export_to_file fs mf w in (r, w')
  | Add_supporting_actor a => add_supporting_actor a w
  | Clear => clear w
  | Init => init w
  | Init_actors => init_actors w
  | Display x y => let '(r, w') := display x y w in (outcome r, w')
  | Reshape x y => reshape x y w
  | Draw_axes l => draw_axes l w
  | Button_press x y => button_press x y w
  | Button_motion x y l m r => button_motion x y l m r w
  | Wheel_scroll d => wheel_scroll d w
  | Reset_view b => reset_view b w
  | Set_mode_2d v => set_mode_2d v w
  | Set_mode_ortho v => set_mode_ortho v w
  | Rotate_view a e => rotate_view a e w
  | View_model_center => view_model_center w
  | Change_num_layers n => change_num_layers n w
  | Scale_model f => scale_model f w
  | Center_model => center_model w
  | Change_model_dimension d v => change_model_dimension d v w
  | Rotate_model a n => rotate_model a n w
  | Show_arrows b => show_arrows b w
  end.

Definition step (o : op) (w : world F) : world F := snd (run o w).

End Methods.

End Scene.

(** ** The model methods, from the specification *)

Module ModelSpec.

Section Methods.
Context {F : Type} {num : PyNum F}.

Definition sub3 (a b : vec3 F) : vec3 F :=
  let '(a0, a1, a2) := a in
  let '(b0, b1, b2) := b in
  (fsub a0 b0, fsub a1 b1, fsub a2 b2).

Definition cross (a b : vec3 F) : vec3 F :=
  let '(a0, a1, a2) := a in
  let '(b0, b1, b2) := b in
  (fsub (fmul a1 b2) (fmul a2 b1),
   fsub (fmul a2 b0) (fmul a0 b2),
   fsub (fmul a0 b1) (fmul a1 b0)).

Definition norm (v : vec3 F) : F :=
  let '(v0, v1, v2) := v in
  fsqrt (fadd (fadd (fmul v0 v0) (fmul v1 v1)) (fmul v2 v2)).

(** A zero vector is returned as it is. *)
Definition normalize (v : vec3 F) : vec3 F :=
  let '(v0, v1, v2) := v in
  let n := norm v in
  if feqb n (of_Z 0) then v else (fdiv v0 n, fdiv v1 n, fdiv v2 n).

(** Modelled from the spec: the facet normal of [calculate_normals]
    ([stlmodel.py] is not part of the sources), "the normalized cross
    product of (v1 - v0) and (v2 - v0)" (section 4.1). *)
Definition facet_normal (v0 v1 v2 : vec3 F) : vec3 F :=
  normalize (cross (sub3 v1 v0) (sub3 v2 v0)).

(** Modelled from the spec: [StlModel.calculate_normals]
    ([stlmodel.py] is not part of the sources), which "returns exactly
    len(vertices)/3 vectors", the facet normal of every facet in input
    order (section 8). *)
Fixpoint calculate_normals (vertices : list (vec3 F)) : list (vec3 F) :=
  match vertices with
  | v0 :: v1 :: v2 :: rest =>
      facet_normal v0 v1 v2 :: calculate_normals rest
  | _ => []
  end.

(** Modelled from the spec: [normal_data_empty], "true iff the normals
    buffer is absent or of length zero". *)
Definition normal_data_empty (m : Model.t F) : bool :=
  match Model.normals m with
  | [] => true
  | _ => false
  end.

(** Modelled from the spec: [Model()], a model before [load_data]. *)
Definition new : Model.t F :=
  Model.mk [] [] (of_Z 0) (of_Z 0) (of_Z 0) (of_Z 1)
           (of_Z 0, of_Z 0, of_Z 0) false false 0 false.

(** Modelled from the spec: [load_data] "fails with GeometryError if
    len(vertices) is not a multiple of 3"; normals that are omitted or
    empty are computed; [modified] is false afterwards. *)
Definition load_data (vertices : list (vec3 F))
           (normals : option (list (vec3 F))) (m : Model.t F)
  : result (Model.t F) :=
  if negb (PySeq.len vertices mod 3 =? 0) then Raise GeometryError
  else
    let normals :=
      match normals with
      | None | Some [] => calculate_normals vertices
      | Some ns => ns
      end in
    Ok (Model.mk vertices normals (Model.offset_x m) (Model.offset_y m)
                 (Model.offset_z m) (Model.scaling_factor m)
                 (Model.rotation m) false (Model.initialized m)
                 (Model.num_layers_to_draw m) (Model.arrows_enabled m)).

(** Modelled from the spec: [scale] "multiplies scaling_factor by
    factor; sets modified = true.  Fails with GeometryError if
    factor <= 0". *)
Definition scale (factor : F) (m : Model.t F) : result (Model.t F) :=
  if fleb factor (of_Z 0) then Raise GeometryError
  else
    Ok (Model.mk (Model.vertices m) (Model.normals m) (Model.offset_x m)
                 (Model.offset_y m) (Model.offset_z m)
                 (fmul (Model.scaling_factor m) factor)
                 (Model.rotation m) true (Model.initialized m)
                 (Model.num_layers_to_draw m) (Model.arrows_enabled m)).

(** Modelled from the spec: [translate] "adds to offset; sets
    modified = true". *)
Definition translate (dx dy dz : F) (m : Model.t F)
  : result (Model.t F) :=
  Ok (Model.set_modified true
        (Model.set_offset (fadd (Model.offset_x m) dx)
                          (fadd (Model.offset_y m) dy)
                          (fadd (Model.offset_z m) dz) m)).

Definition with_rotation (r : vec3 F) (m : Model.t F) : Model.t F :=
  Model.mk (Model.vertices m) (Model.normals m) (Model.offset_x m)
           (Model.offset_y m) (Model.offset_z m) (Model.scaling_factor m)
           r true (Model.initialized m)
           (Model.num_layers_to_draw m) (Model.arrows_enabled m).

(** Modelled from the spec: [rotate_rel] turns the model further by
    [angle] about [axis]; sets modified = true. *)
Definition rotate_rel (angle : F) (axis : Model.axis) (m : Model.t F)
  : result (Model.t F) :=
  let '(rx, ry, rz) := Model.rotation m in
  Ok (with_rotation
        match axis with
        | Model.AXIS_X => (fadd rx angle, ry, rz)
        | Model.AXIS_Y => (rx, fadd ry angle, rz)
        | Model.AXIS_Z => (rx, ry, fadd rz angle)
        end m).

(** Modelled from the spec: [rotate_abs] sets the angle stored for
    [axis], "leaving the orientation contribution of the other two axes
    unchanged"; sets modified = true. *)
Definition rotate_abs (angle : F) (axis : Model.axis) (m : Model.t F)
  : result (Model.t F) :=
  let '(rx, ry, rz) := Model.rotation m in
  Ok (with_rotation
        match axis with
        | Model.AXIS_X => (angle, ry, rz)
        | Model.AXIS_Y => (rx, angle, rz)
        | Model.AXIS_Z => (rx, ry, angle)
        end m).

(** Modelled from the spec: [init] "performs one-time render-resource
    preparation; idempotent guard via initialized". *)
Definition init (m : Model.t F) : result (Model.t F) :=
  Ok (Model.mk (Model.vertices m) (Model.normals m) (Model.offset_x m)
               (Model.offset_y m) (Model.offset_z m)
               (Model.scaling_factor m) (Model.rotation m)
               (Model.modified m) true
               (Model.num_layers_to_draw m) (Model.arrows_enabled m)).

Definition fmin (a b : F) : F := if fltb b a then b else a.
Definition fmax (a b : F) : F := if fltb a b then b else a.

(** A vertex with the scaling factor and the offset applied. *)
Definition placed (m : Model.t F) (v : vec3 F) : vec3 F :=
  let '(v0, v1, v2) := v in
  (fadd (fmul v0 (Model.scaling_factor m)) (Model.offset_x m),
   fadd (fmul v1 (Model.scaling_factor m)) (Model.offset_y m),
   fadd (fmul v2 (Model.scaling_factor m)) (Model.offset_z m)).

(** Modelled from the spec: [bounding_box], the coordinate-wise minimum
    and maximum over the placed vertices (the origin for an empty
    buffer). *)
Definition bounding_box (m : Model.t F) : vec3 F * vec3 F :=
  match map (placed m) (Model.vertices m) with
  | [] => ((of_Z 0, of_Z 0, of_Z 0), (of_Z 0, of_Z 0, of_Z 0))
  | v :: vs =>
      fold_left
        (fun box p =>
           let '((l0, l1, l2), (u0, u1, u2)) := box in
           let '(p0, p1, p2) := p in
           ((fmin l0 p0, fmin l1 p1, fmin l2 p2),
            (fmax u0 p0, fmax u1 p1, fmax u2 p2)))
        vs (v, v)
  end.

(** Modelled from the spec: the attributes [change_model_dimension]
    reads with [getattr] ([model.py] is not part of the sources), taken to
    be the extents of the bounding box under the names [width], [depth]
    and [height]. *)
Definition getattr (m : Model.t F) (name : string) : result F :=
  let '((l0, l1, l2), (u0, u1, u2)) := bounding_box m in
  if String.eqb name "width" then Ok (fsub u0 l0)
  else if String.eqb name "depth" then Ok (fsub u1 l1)
  else if String.eqb name "height" then Ok (fsub u2 l2)
  else Raise (AttributeError name).

(** Modelled from the spec: [Model.letter_axis_map] "maps a letter
    ('x'/'y'/'z') to an axis identifier". *)
Definition letter_axis_map (name : string) : result Model.axis :=
  if String.eqb name "x" then Ok Model.AXIS_X
  else if String.eqb name "y" then Ok Model.AXIS_Y
  else if String.eqb name "z" then Ok Model.AXIS_Z
  else Raise (KeyError name).

End Methods.

(** The methods above as the implementation [Scene] calls. *)
Definition methods {F : Type} {num : PyNum F} : ModelMethods F := {|
  model_scale := scale;
  model_translate := translate;
  model_rotate_abs := rotate_abs;
  model_init := init;
  model_getattr := getattr;
  model_bounding_box := bounding_box;
  model_letter_axis_map := letter_axis_map
|}.

End ModelSpec.

(** ** Exact numbers: the [R] instance *)

Module RealNum.
Local Open Scope R_scope.

Definition eqb (a b : R) : bool := if Req_dec_T a b then true else false.
Definition ltb (a b : R) : bool := if Rlt_dec a b then true else false.
Definition leb (a b : R) : bool := if Rle_dec a b then true else false.

(** The angle of the point [(x, y)], in [(-PI, PI]]. *)
Definition atan2 (y x : R) : R :=
  if Rlt_dec 0 x then atan (y / x)
  else if Rlt_dec x 0 then
    if Rle_dec 0 y then atan (y / x) + PI else atan (y / x) - PI
  else if Rlt_dec 0 y then PI / 2
  else if Rlt_dec y 0 then - (PI / 2)
  else 0.

Definition round_half_even (x : R) : Z :=
  let f := Int_part x in
  let d := frac_part x in
  if Rlt_dec d (1 / 2) then f
  else if Rlt_dec (1 / 2) d then (f + 1)%Z
  else if Z.even f then f else (f + 1)%Z.

Definition format_6f (x : R) : string :=
  let n := round_half_even (Rabs x * 1000000) in
  ((if Rlt_dec x 0 then "-" else "")
     ++ Float64.digits (n / 1000000) ++ "."
     ++ Float64.frac6 (n mod 1000000))%string.

End RealNum.

#[export] Instance real_num : PyNum R := {
  numpy_scalar := fun _ => false;
  of_Z := IZR;
  fadd := Rplus;
  fsub := Rminus;
  fmul := Rmult;
  fdiv := Rdiv;
  fneg := Ropp;
  feqb := RealNum.eqb;
  fltb := RealNum.ltb;
  fleb := RealNum.leb;
  fsqrt := sqrt
}.

#[export] Instance real_math : PyMath R := {
  pi := PI;
  py_sq := fun x => Ok (x * x)%R;
  m_sin := fun x => Ok (sin x);
  m_atan2 := RealNum.atan2
}.

#[export] Instance real_format : PyFormat R := {
  fmt_6f := RealNum.format_6f
}.

(** ** The output format of section 6 of the specification *)

Module Section6.
Import FileSystem.

Section Text.
Context {F : Type} {fmt : PyFormat F}.

Definition vertex_line (v : vec3 F) : string :=
  let '(v0, v1, v2) := v in
  "    vertex " ++ fmt_6f v0 ++ " " ++ fmt_6f v1 ++ " " ++ fmt_6f v2
    ++ newline.

(** One facet block, every vertex line indented like the first. *)
Definition facet_block (v0 v1 v2 normal : vec3 F) : string :=
  let '(n0, n1, n2) := normal in
  "facet normal " ++ fmt_6f n0 ++ " " ++ fmt_6f n1 ++ " " ++ fmt_6f n2
    ++ newline
    ++ "  outer loop" ++ newline
    ++ vertex_line v0 ++ vertex_line v1 ++ vertex_line v2
    ++ "  endloop" ++ newline
    ++ "endfacet" ++ newline.

(** One block per three consecutive vertices, each with the normal
    [normal_of k] of its facet [k]. *)
Fixpoint blocks (vertices : list (vec3 F)) (normal_of : nat -> vec3 F)
         (k : nat) : string :=
  match vertices with
  | v0 :: v1 :: v2 :: rest =>
      facet_block v0 v1 v2 (normal_of k) ++ blocks rest normal_of (S k)
  | _ => ""
  end.

(** The whole file: [solid], the blocks, [endsolid], nothing else. *)
Definition stl_text (vertices : list (vec3 F)) (normal_of : nat -> vec3 F)
  : string :=
  "solid" ++ newline ++ blocks vertices normal_of 0
    ++ "endsolid" ++ newline.

End Text.

End Section6.

(** ** Concrete inputs *)

Module Inputs.
Import FileSystem.

(** A file system with no files in which every path can be written. *)
Definition empty_fs : FS := FileSystem.mk (fun _ => None) (fun _ => true).

(** The same with a file "job.gcode" holding one command. *)
Definition gcode_fs : FS := put empty_fs "job.gcode" "G1 X9".

(** The mesh of [StlModelTest.setUp]: one facet, one normal row per
    vertex. *)
Definition test_vertices : list (vec3 float) :=
  [(0, 0.5, 0); (0.5, -0.5, 0); (-0.5, -0.5, 0)]%float.

Definition test_normals : list (vec3 float) :=
  [(0, 0, 1); (0, 0, 1); (0, 0, 1)]%float.

Definition mesh (vertices normals : list (vec3 float)) : Model.t float :=
  Model.mk vertices normals 0%float 0%float 0%float 1%float
           (0, 0, 0)%float false false 0 false.

Definition test_mesh : Model.t float := mesh test_vertices test_normals.

(** The array [test_calculate_normals] compares the result with. *)
Definition test_expected_normals : list (vec3 float) :=
  [(0, 0, -1); (0, 0, -1); (0, 0, -1)]%float.

(** [numpy.testing.assert_array_almost_equal] on arrays of rows: the same
    shape, and entries that differ by less than 1.5e-6. *)
Definition almost_equal (a b : list (vec3 float)) : bool :=
  let close x y := (PrimFloat.abs (x - y) <? 0x1.92a737110e454p-20)%float in
  Nat.eqb (List.length a) (List.length b)
  && forallb (fun '((a0, a1, a2), (b0, b1, b2)) =>
                close a0 b0 && close a1 b1 && close a2 b2)
             (combine a b).

(** [StlModelTest.setUp]: a new model with the test data loaded. *)
Definition setUp : result (Model.t float) :=
  ModelSpec.load_data test_vertices (Some test_normals) ModelSpec.new.

(** [StlModelTest.test_calculate_normals] run against an implementation
    of [calculate_normals]: whether its assertion holds. *)
Definition test_calculate_normals
           (calculate_normals : Model.t float -> list (vec3 float)) : bool :=
  match setUp with
  | Ok model => almost_equal (calculate_normals model) test_expected_normals
  | Raise _ => false
  end.

(** A [calculate_normals] that passes the test: the facet normal, once
    for each of the three vertices of the facet. *)
Fixpoint vertex_normals (vertices : list (vec3 float))
  : list (vec3 float) :=
  match vertices with
  | v0 :: v1 :: v2 :: rest =>
      let n := ModelSpec.facet_normal v0 v1 v2 in
      n :: n :: n :: vertex_normals rest
  | _ => []
  end.

(** Two facets. *)
Definition two_facets : list (vec3 float) :=
  [(0, 0, 0); (1, 0, 0); (0, 1, 0);
   (0, 0, 1); (1, 0, 1); (0, 1, 1)]%float.

(** One normal per facet, as section 3 of the specification has it. *)
Definition per_facet_normals : list (vec3 float) :=
  [(0, 0, 1); (0, 0, -1)]%float.

(** One normal per vertex, as the unit test has it. *)
Definition per_vertex_normals : list (vec3 float) :=
  [(0, 0, 1); (0, 0, 1); (0, 0, 1);
   (0, 0, -1); (0, 0, -1); (0, 0, -1)]%float.

(** A G-code parser that accepts the empty file only, and an STL parser
    that rejects every file. *)
Definition strict_parsers : Parsers := {|
  Callback := unit;
  GcodeParser := string;
  GcodeData := list string;
  GcodeModel := unit;
  StlParser := string;
  StlData := list (vec3 float) * list (vec3 float);
  StlModel := Model.t float;
  GcodeParser_new := "";
  GcodeParser_load := fun _ f => Ok f;
  GcodeParser_parse := fun p _ =>
    if String.eqb p "" then Ok []
    else Raise (GcodeParserError ("Unknown command: " ++ p));
  GcodeModel_new := tt;
  StlParser_new := fun f => f;
  StlParser_load := fun p _ => Ok p;
  StlParser_parse := fun p _ => Raise (StlParseError "No facets");
  StlModel_new := mesh [] []
|}.


(** View methods that accumulate each gesture into the camera state; only
    a view with the ortho toggle turns. *)
Definition additive_views {F : Type} {num : PyNum F} : ViewMethods F := {|
  view_rotate := fun da de v =>
    if View.supports_ortho v
    then View.set_angles (fadd (View.azimuth v) da)
                         (fadd (View.elevation v) de) v
    else v;
  view_pan := fun dx dy v =>
    View.mk (fadd (View.x v) dx) (View.y v) (fadd (View.z v) dy)
            (View.zoom_factor v) (View.azimuth v) (View.elevation v)
            (View.supports_ortho v) (View.ortho v);
  view_zoom := fun dx dy v =>
    View.mk (View.x v) (View.y v) (View.z v)
            (fmul (View.zoom_factor v)
                  (fadd (of_Z 1) (fdiv dy (of_Z 100))))
            (View.azimuth v) (View.elevation v)
            (View.supports_ortho v) (View.ortho v);
  has_offset := fun v => View.supports_ortho v;
  view_offset := fun dx dy v =>
    View.mk (View.x v) (fadd (View.y v) dy) (View.z v)
            (View.zoom_factor v) (View.azimuth v) (View.elevation v)
            (View.supports_ortho v) (View.ortho v);
  view_reset_state := fun v =>
    View.mk (of_Z 0) (of_Z 0) (of_Z 0) (of_Z 1) (of_Z 0) (of_Z 0)
            (View.supports_ortho v) false
|}.

(** A world whose objects are all the two-facet mesh, 1 wide, and whose
    scene has the object 0 as its model. *)
Definition float_world : Scene.world float :=
  Scene.mk_world
    (fun _ => mesh two_facets per_vertex_normals)
    (Scene.mk (Some 0%nat) [0%nat] 0%float 0%float
              (View.mk 0 0 0 1 0 (-90) false false)%float
              (View.mk 0 100 50 1 0 0 true false)%float
              Scene.view_perspective_ref false false).

(** The same with a mesh of no width. *)
Definition thin_world : Scene.world float :=
  Scene.mk_world
    (fun _ => mesh [(0, 0, 0); (0, 1, 0); (0, 0, 1)]%float test_normals)
    (Scene.scene float_world).

(** The mesh of no width again, its vertices and normals rows of numpy
    arrays; the numbers of the scene are Python floats. *)
Definition numpy_thin_world : Scene.world Numpy.t :=
  let np (v : vec3 float) : vec3 Numpy.t :=
    let '(v0, v1, v2) := v in (Numpy.Np v0, Numpy.Np v1, Numpy.Np v2) in
  let py := Numpy.Py in
  Scene.mk_world
    (fun _ => Model.mk (map np [(0, 0, 0); (0, 1, 0); (0, 0, 1)]%float)
                       (map np test_normals)
                       (py 0%float) (py 0%float) (py 0%float) (py 1%float)
                       (py 0%float, py 0%float, py 0%float)
                       false false 0 false)
    (Scene.mk (Some 0%nat) [0%nat] (py 0%float) (py 0%float)
              (View.mk (py 0) (py 0) (py 0) (py 1) (py 0) (py (-90))
                       false false)%float
              (View.mk (py 0) (py 100) (py 50) (py 1) (py 0) (py 0)
                       true false)%float
              Scene.view_perspective_ref false false).

Local Open Scope R_scope.

(** The camera of the example in section 8: y = 100, z = 50, zoom factor
    1, elevation 0. *)
Definition camera : View.t R := View.mk 0 100 50 1 0 0 true false.

Definition flat_view : View.t R := View.mk 0 0 0 1 0 (-90) false false.

(** A triangle with a bounding box 2 wide. *)
Definition triangle : Model.t R :=
  Model.mk [(0, 0, 0); (2, 0, 0); (0, 1, 0)]
           [(0, 0, 1); (0, 0, 1); (0, 0, 1)]
           0 0 0 1 (0, 0, 0) false false 0%Z false.

(** A world whose objects are all [triangle]. *)
Definition world_of (s : Scene.t R) : Scene.world R :=
  Scene.mk_world (fun _ => triangle) s.

Definition fresh_scene : Scene.t R := Scene.new flat_view camera.

(** A world whose model, the object 0, has unsaved changes. *)
Definition edited_world : Scene.world R :=
  Scene.mk_world
    (fun _ => Model.set_modified true triangle)
    (Scene.with_actors [0%nat] (Scene.with_model (Some 0%nat) fresh_scene)).

(** Two actors, none of them a model, seen through [camera]. *)
Definition two_actors : Scene.world R :=
  world_of (Scene.with_actors [0%nat; 1%nat] fresh_scene).

(** The scene methods over [R], with the view methods above and the model
    methods of the specification. *)
Definition real_step : Scene.op -> Scene.world R -> Scene.world R :=
  @Scene.step R _ _ _ additive_views ModelSpec.methods.

Definition real_run : Scene.op -> Scene.world R -> result unit * Scene.world R :=
  @Scene.run R _ _ _ additive_views ModelSpec.methods.

End Inputs.

(** ** Cached attributes of a [ModelFile] *)

Module Cache.
Import Storage.

(** A cached attribute is either unset or holds [v]. *)
Definition unset_or (c : option string) (v : string) : bool :=
  match c with
  | None => true
  | Some x => String.eqb x v
  end.

(** Every cached attribute that is set holds the value computed from the
    current path. *)
Definition coherent (self : ModelFile) : bool :=
  unset_or (_dirname self) (OsPath.dirname (_path self))
  && unset_or (_basename self) (OsPath.basename (_path self))
  && unset_or (_extension self) (ext_of (_path self)).

End Cache.

(** ** More concrete inputs *)

Module MoreInputs.
Import FileSystem.

(** Parsers whose [parse] fails with an exception of another class: the
    G-code parser with ValueError, the STL parser with IndexError. *)
Definition clumsy_parsers : Parsers := {|
  Callback := unit;
  GcodeParser := string;
  GcodeData := list string;
  GcodeModel := unit;
  StlParser := string;
  StlData := list (vec3 float) * list (vec3 float);
  StlModel := Model.t float;
  GcodeParser_new := "";
  GcodeParser_load := fun _ f => Ok f;
  GcodeParser_parse := fun p _ => Raise ValueError;
  GcodeModel_new := tt;
  StlParser_new := fun f => f;
  StlParser_load := fun p _ => Ok p;
  StlParser_parse := fun p _ => Raise IndexError;
  StlModel_new := Inputs.mesh [] []
|}.

(** A file system holding an empty file "empty.gcode". *)
Definition empty_file_fs : FS := put Inputs.empty_fs "empty.gcode" "".

(** A file system in which nothing can be written. *)
Definition read_only_fs : FS := FileSystem.mk (fun _ => None) (fun _ => false).

(** A world of [float] objects whose scene has no model and no actor. *)
Definition bare_world : Scene.world float :=
  Scene.mk_world
    (fun _ => Inputs.mesh Inputs.two_facets Inputs.per_vertex_normals)
    (Scene.new (View.mk 0 0 0 1 0 (-90) false false)%float
               (View.mk 0 100 50 1 0 0 true false)%float).

(** The same with the 2D view current. *)
Definition bare_world_2d : Scene.world float :=
  Scene.mk_world (Scene.heap bare_world)
                 (Scene.with_current_view Scene.view_ortho_ref
                                          (Scene.scene bare_world)).

(** A world whose one actor, the model, is initialised already. *)
Definition ready_world : Scene.world float :=
  Scene.mk_world
    (fun _ => Model.mk Inputs.test_vertices Inputs.test_normals
                       0%float 0%float 0%float 1%float (0, 0, 0)%float
                       false true 0 false)
    (Scene.scene Inputs.float_world).

(** The scene methods over [float] that need no math library. *)
Definition float_views : ViewMethods float := Inputs.additive_views.

(** Four vertices: one facet and one vertex left over. *)
Definition four_vertices : list (vec3 float) :=
  [(0, 0, 0); (1, 0, 0); (0, 1, 0); (2, 2, 2)]%float.

End MoreInputs.

(** ** Calls that go through [self.model] *)

Module ModelCalls.

(** The methods whose first step is an access to an attribute of
    [self.model] that [None] does not have. *)
Definition starts_at_model {F : Type} (o : @Scene.op F) : bool :=
  match o with
  | Scene.View_model_center
  | Scene.Change_num_layers _
  | Scene.Scale_model _
  | Scene.Center_model
  | Scene.Show_arrows _ => true
  | Scene.Change_model_dimension dimension _ =>
      negb (PyStr.mem dimension Scene.NoneType_dir)
  | _ => false
  end.

End ModelCalls.

(** * Properties *)

(** ** Strings and paths *)

Module PyStrFacts.
Import PyStr.

Lemma len_nonneg (s : string) : 0 <= len s.
Proof. unfold len. lia. Qed.

Lemma len_String (c : ascii) (s : string) : len (String c s) = len s + 1.
Proof. unfold len. simpl String.length. lia. Qed.

Lemma length_append (s t : string) :
  String.length (s ++ t) = (String.length s + String.length t)%nat.
Proof. induction s as [|c s IH]; simpl; [reflexivity | now rewrite IH]. Qed.

Lemma len_append (s t : string) : len (s ++ t) = len s + len t.
Proof. unfold len. rewrite length_append. lia. Qed.

Lemma append_assoc (s t u : string) : (s ++ t) ++ u = s ++ t ++ u.
Proof. induction s as [|c s IH]; simpl; [reflexivity | now rewrite IH]. Qed.

Lemma contains_append (c : ascii) (s t : string) :
  contains c (s ++ t) = contains c s || contains c t.
Proof.
  induction s as [|a s IH]; simpl; [reflexivity|].
  rewrite IH. now rewrite orb_assoc.
Qed.

Lemma rfind_from_absent (c : ascii) (s : string) (i : Z) :
  contains c s = false -> rfind_from c s i = -1.
Proof.
  revert i. induction s as [|a s IH]; simpl; intros i H; [reflexivity|].
  apply orb_false_iff in H. destruct H as [Ha Hs].
  rewrite (IH (i + 1) Hs), Ha. reflexivity.
Qed.

Lemma rfind_from_last (c : ascii) (s t : string) (i : Z) :
  0 <= i -> contains c t = false ->
  rfind_from c (s ++ String c t) i = i + len s.
Proof.
  revert i. induction s as [|a s IH]; intros i Hi Ht.
  - cbn [append rfind_from]. rewrite (rfind_from_absent _ _ _ Ht).
    rewrite Ascii.eqb_refl. cbn. unfold len. simpl. lia.
  - cbn [append rfind_from]. rewrite (IH (i + 1)) by (lia || assumption).
    pose proof (len_nonneg s).
    destruct (0 <=? i + 1 + len s) eqn:E; [|apply Z.leb_gt in E; lia].
    rewrite len_String. lia.
Qed.

Lemma substring_0_all (s : string) : substring 0 (String.length s) s = s.
Proof. induction s as [|c s IH]; simpl; [reflexivity | now rewrite IH]. Qed.

Lemma slice_from_append (s t : string) : slice_from (len s) (s ++ t) = t.
Proof.
  unfold slice_from, len. rewrite Nat2Z.id, length_append.
  replace (String.length s + String.length t - String.length s)%nat
    with (String.length t) by lia.
  induction s as [|c s IH]; simpl.
  - apply substring_0_all.
  - exact IH.
Qed.

Lemma slice_from_0 (s : string) : slice_from 0 s = s.
Proof. exact (slice_from_append "" s). Qed.

Lemma slice_to_append (s t : string) : slice_to (len s) (s ++ t) = s.
Proof.
  unfold slice_to, len. rewrite Nat2Z.id, length_append.
  replace (Nat.min (String.length s) (String.length s + String.length t))
    with (String.length s) by lia.
  induction s as [|c s IH]; simpl.
  - now destruct t.
  - now rewrite IH.
Qed.

Lemma slice1_append (s t : string) (c : ascii) :
  slice1 (len s) (s ++ String c t) = String c "".
Proof.
  unfold slice1, len. rewrite Nat2Z.id.
  induction s as [|a s IH]; simpl; [reflexivity | exact IH].
Qed.

(** Lower-casing neither creates nor removes a separator or a dot. *)
Lemma lower_char_eqb (c a : ascii) :
  is_upper c = false ->
  is_upper (ascii_of_N (N_of_ascii c - 32)) = false ->
  Ascii.eqb (lower_char a) c = Ascii.eqb a c.
Proof.
  intros Hc Hc'. unfold lower_char.
  destruct (is_upper a) eqn:Ha; [|reflexivity].
  destruct (Ascii.eqb a c) eqn:E.
  - apply Ascii.eqb_eq in E. congruence.
  - apply Ascii.eqb_neq. intros H.
    assert (a = ascii_of_N (N_of_ascii c - 32)) as ->; [|congruence].
    rewrite <- H. rewrite N_ascii_embedding.
    + rewrite N.add_sub. now rewrite ascii_N_embedding.
    + unfold is_upper in Ha. apply andb_true_iff in Ha.
      destruct Ha as [_ Ha]. apply N.leb_le in Ha. lia.
Qed.

Lemma contains_lower (c : ascii) (s : string) :
  is_upper c = false ->
  is_upper (ascii_of_N (N_of_ascii c - 32)) = false ->
  contains c (lower s) = contains c s.
Proof.
  intros Hc Hc'. induction s as [|a s IH]; simpl; [reflexivity|].
  now rewrite IH, lower_char_eqb.
Qed.

End PyStrFacts.

Module OsPathFacts.
Import PyStr PyStrFacts OsPath.

Lemma basename_in_dir (dir : option string) (name : string) :
  contains sep name = false -> basename (in_dir dir name) = name.
Proof.
  intros H. unfold basename, rfind. destruct dir as [d|]; cbn [in_dir].
  - rewrite rfind_from_last by (lia || assumption).
    replace (d ++ String sep name) with ((d ++ String sep "") ++ name)
      by (now rewrite append_assoc).
    replace (0 + len d + 1) with (len (d ++ String sep ""))
      by (rewrite len_append, len_String; unfold len; simpl; lia).
    apply slice_from_append.
  - rewrite rfind_from_absent by assumption. apply slice_from_0.
Qed.

(** The loop looks for a character other than the dot among the
    characters of [stem], which start at index [len pre]. *)
Lemma splitext_loop_stem (stem pre rest : string) :
  let p := pre ++ stem ++ rest in
  let dotIndex := len pre + len stem in
  splitext_loop (String.length stem) p dotIndex (len pre)
  = if only extsep stem then None
    else Some (slice_to dotIndex p, slice_from dotIndex p).
Proof.
  revert pre. induction stem as [|c stem IH]; intros pre; cbn zeta.
  - reflexivity.
  - cbn [String.length splitext_loop only].
    pose proof (len_nonneg stem) as Hs.
    rewrite len_String.
    destruct (len pre <? len pre + (len stem + 1)) eqn:E;
      [|apply Z.ltb_ge in E; lia].
    cbn [append]. rewrite slice1_append.
    cbn [String.eqb]. destruct (Ascii.eqb c extsep) eqn:Ec; cbn [negb andb].
    + specialize (IH (pre ++ String c "")). cbn zeta in IH.
      rewrite append_assoc in IH. cbn [append] in IH.
      rewrite len_append, len_String in IH.
      replace (len "") with 0 in IH by reflexivity.
      replace (len pre + (0 + 1) + len stem)
        with (len pre + (len stem + 1)) in IH by lia.
      replace (len pre + (0 + 1)) with (len pre + 1) in IH by lia.
      exact IH.
    + reflexivity.
Qed.

(** A name [stem.e] with a stem that is not made of dots only splits at
    its last dot. *)
Lemma splitext_stem_ext (stem e : string) :
  contains sep stem = false -> contains sep e = false ->
  contains extsep e = false -> only extsep stem = false ->
  splitext (stem ++ String extsep e) = (stem, String extsep e).
Proof.
  intros Hs He Hd Ho. unfold splitext, rfind.
  rewrite (rfind_from_absent sep).
  2:{ rewrite contains_append, Hs. cbn. exact He. }
  rewrite rfind_from_last by (lia || assumption).
  pose proof (len_nonneg stem) as Hl.
  destruct (-1 <? 0 + len stem) eqn:E; [|apply Z.ltb_ge in E; lia].
  replace (Z.to_nat (0 + len stem - (-1 + 1))) with (String.length stem)
    by (unfold len; lia).
  pose proof (splitext_loop_stem stem "" (String extsep e)) as L.
  cbn zeta in L. cbn [append] in L.
  replace (len "" + len stem) with (0 + len stem) in L by reflexivity.
  replace (len "") with (-1 + 1) in L by reflexivity.
  rewrite L, Ho.
  replace (0 + len stem) with (len stem) by lia.
  now rewrite slice_to_append, slice_from_append.
Qed.

(** A name made of dots up to its last dot has no extension. *)
Lemma splitext_dots (stem e : string) :
  contains sep stem = false -> contains sep e = false ->
  contains extsep e = false -> only extsep stem = true ->
  splitext (stem ++ String extsep e) = (stem ++ String extsep e, "").
Proof.
  intros Hs He Hd Ho. unfold splitext, rfind.
  rewrite (rfind_from_absent sep).
  2:{ rewrite contains_append, Hs. cbn. exact He. }
  rewrite rfind_from_last by (lia || assumption).
  pose proof (len_nonneg stem) as Hl.
  destruct (-1 <? 0 + len stem) eqn:E; [|apply Z.ltb_ge in E; lia].
  replace (Z.to_nat (0 + len stem - (-1 + 1))) with (String.length stem)
    by (unfold len; lia).
  pose proof (splitext_loop_stem stem "" (String extsep e)) as L.
  cbn zeta in L. cbn [append] in L.
  replace (len "" + len stem) with (0 + len stem) in L by reflexivity.
  replace (len "") with (-1 + 1) in L by reflexivity.
  now rewrite L, Ho.
Qed.

End OsPathFacts.

(** ** [ModelFile.filetype] *)

Module FiletypeFacts.
Import PyStr PyStrFacts OsPath OsPathFacts Storage.

Lemma filetype_init (path : string) :
  fst (filetype (init path None))
  = if mem (ext_of path) [".gcode"; ".nc"; ".stl"]
    then Ok (if mem (ext_of path) [".gcode"; ".nc"] then "gcode" else "stl")
    else Raise (ModelFileError
                  ("Unsupported file extension: " ++ ext_of path)).
Proof.
  unfold filetype, init, _reset_file_attributes, extension, basename,
    Storage.path.
  cbn [_ftype _extension _basename _path _dirname _size].
  fold (ext_of path).
  destruct (mem (ext_of path) [".gcode"; ".nc"; ".stl"]); reflexivity.
Qed.

Lemma extension_again (self : ModelFile) :
  extension (snd (extension self)) = extension self
  /\ Storage.path (snd (extension self)) = Storage.path self.
Proof.
  unfold extension, basename, Storage.path.
  destruct (_extension self) as [e|] eqn:E; cbn.
  - rewrite E. split; reflexivity.
  - destruct (_basename self) as [b|]; cbn; split; reflexivity.
Qed.

Lemma path_filetype (self : ModelFile) :
  Storage.path (snd (filetype self)) = Storage.path self.
Proof.
  unfold filetype. destruct (_ftype self); [reflexivity|].
  destruct (extension_again self) as [Ha Hp].
  destruct (extension self) as [e self1]. cbn [snd] in Ha, Hp.
  rewrite Ha. destruct (negb (mem e _)); exact Hp.
Qed.

Lemma ext_of_stem_ext (dir : option string) (stem e : string) :
  contains sep stem = false -> only extsep stem = false ->
  contains sep (lower e) = false -> contains extsep (lower e) = false ->
  ext_of (in_dir dir (stem ++ String extsep e)) = String extsep (lower e).
Proof.
  intros Hs Ho He Hd. unfold ext_of.
  rewrite contains_lower in He by reflexivity.
  rewrite contains_lower in Hd by reflexivity.
  rewrite basename_in_dir.
  2:{ rewrite contains_append, Hs. cbn. exact He. }
  rewrite splitext_stem_ext by assumption.
  reflexivity.
Qed.

(** C4, as the code has it.  For every [ModelFile] built without a
    filetype override whose lower-cased extension is none of [.gcode],
    [.nc], [.stl], reading [filetype] raises [ModelFileError] with the
    message "Unsupported file extension: " followed by that extension. *)
Theorem filetype_unsupported_extension (path : string) :
  mem (ext_of path) [".gcode"; ".nc"; ".stl"] = false ->
  fst (filetype (init path None))
  = Raise (ModelFileError ("Unsupported file extension: " ++ ext_of path)).
Proof. intros H. rewrite filetype_init, H. reflexivity. Qed.

Lemma filetype_unsupported_extension_witness :
  mem (ext_of "notes.txt") [".gcode"; ".nc"; ".stl"] = false
  /\ fst (filetype (init "notes.txt" None))
     = Raise (ModelFileError "Unsupported file extension: .txt").
Proof.
  split; [reflexivity|].
  exact (filetype_unsupported_extension "notes.txt" eq_refl).
Defined.

(** C4, as the specification states it, fails: the error raised for
    "notes.txt" is a [ModelFileError], not a kind of its own. *)
Lemma filetype_unsupported_is_ModelFileError :
  ext_of "notes.txt" = ".txt"
  /\ mem ".txt" [".gcode"; ".nc"; ".stl"] = false
  /\ exists msg,
       fst (filetype (init "notes.txt" None)) = Raise (ModelFileError msg).
Proof.
  split; [reflexivity|]. split; [reflexivity|].
  exists "Unsupported file extension: .txt". reflexivity.
Qed.

(** C5, as the code has it.  An override given at construction is
    returned whatever the path is.  Without one, a file whose name is a
    stem holding some character other than the dot, followed by a dot and
    by [gcode], [nc] or [stl] in any letter case, in any directory,
    resolves to "gcode", "gcode" and "stl". *)
Theorem filetype_resolution
        (dir : option string) (stem e : string) :
  contains sep stem = false -> only extsep stem = false ->
  (forall path t, fst (filetype (init path (Some t))) = Ok t)
  /\ (lower e = "gcode" \/ lower e = "nc" ->
      fst (filetype (init (in_dir dir (stem ++ String extsep e)) None))
      = Ok "gcode")
  /\ (lower e = "stl" ->
      fst (filetype (init (in_dir dir (stem ++ String extsep e)) None))
      = Ok "stl").
Proof.
  intros Hs Ho. split; [reflexivity|].
  split; intros H; rewrite filetype_init.
  - destruct H as [H|H]; rewrite ext_of_stem_ext by (rewrite ?H; auto);
      rewrite H; reflexivity.
  - rewrite ext_of_stem_ext by (rewrite ?H; auto). rewrite H. reflexivity.
Qed.

Lemma filetype_resolution_witness :
  fst (filetype (init "job.gcode" (Some "stl"))) = Ok "stl"
  /\ fst (filetype (init "models/job.NC" None)) = Ok "gcode"
  /\ fst (filetype (init "part.STL" None)) = Ok "stl".
Proof.
  split; [|split].
  - exact (proj1 (filetype_resolution None "x" "" eq_refl eq_refl)
                 "job.gcode" "stl").
  - exact (proj1 (proj2 (filetype_resolution (Some "models") "job" "NC"
                                             eq_refl eq_refl))
                 (or_intror eq_refl)).
  - exact (proj2 (proj2 (filetype_resolution None "part" "STL"
                                             eq_refl eq_refl))
                 eq_refl).
Defined.

(** A name made of dots only before its last dot has no extension and is
    rejected, whatever follows the dot. *)
Lemma filetype_dot_names_rejected (dir : option string) (dots e : string) :
  only extsep dots = true ->
  contains sep e = false -> contains extsep e = false ->
  fst (filetype (init (in_dir dir (dots ++ String extsep e)) None))
  = Raise (ModelFileError "Unsupported file extension: ").
Proof.
  intros Ho He Hd.
  assert (contains sep dots = false) as Hs.
  { clear -Ho. induction dots as [|c dots IH]; [reflexivity|].
    cbn in *. apply andb_true_iff in Ho. destruct Ho as [Hc Ho].
    apply Ascii.eqb_eq in Hc. subst c. cbn. now apply IH. }
  rewrite filetype_init. unfold ext_of.
  rewrite basename_in_dir.
  2:{ rewrite contains_append, Hs. cbn. exact He. }
  now rewrite splitext_dots.
Qed.

(** C5, as the specification states it, fails: the path ".stl" ends in
    ".stl", but its name has no extension and is rejected. *)
Lemma filetype_hidden_file_rejected :
  endswith ".stl" ".stl" = true
  /\ snd (splitext (OsPath.basename ".stl")) = ""
  /\ fst (filetype (init ".stl" None))
     = Raise (ModelFileError "Unsupported file extension: ").
Proof. repeat split. Qed.

End FiletypeFacts.

(** ** [ModelFile.read] *)

Module ReadFacts.
Import Storage FileSystem FiletypeFacts.

Section Read.
Context {P : Parsers}.

Lemma read_unfold (fs : FS) (self : ModelFile) (cb : option Callback) :
  fst (read fs self cb)
  = (key <- fst (filetype self) ;;
     loader <- _loaders key ;;
     loader fs (snd (filetype self)) cb).
Proof. unfold read. destruct (filetype self) as [ft self']. reflexivity. Qed.





End Read.



End ReadFacts.

(** ** Sequences *)

Module PySeqFacts.
Import PySeq.


Lemma comprehension_raise {A B : Type} (f : A -> result B) (g : A -> B)
      (l1 l2 : list A) (a : A) (e : exn) :
  (forall b, In b l1 -> f b = Ok (g b)) -> f a = Raise e ->
  comprehension f (l1 ++ a :: l2) = Raise e.
Proof.
  induction l1 as [|b l1 IH]; intros H Ha; cbn [comprehension app].
  - now rewrite Ha.
  - rewrite (H b (or_introl eq_refl)). cbn [bind].
    rewrite IH by (try assumption; intros x Hx; apply H; now right).
    reflexivity.
Qed.

(** The indices [range(0, n, 3)] visits: [0, 3, ..] below [n]. *)
Lemma range_3 (n : nat) :
  range 0 (Z.of_nat n) 3
  = map (fun k => 3 * Z.of_nat k) (seq 0 ((n + 2) / 3)).
Proof.
  unfold range.
  replace (Z.to_nat ((Z.of_nat n - 0 + 3 - 1) / 3)) with ((n + 2) / 3)%nat.
  - apply map_ext. intros k. lia.
  - replace (Z.of_nat n - 0 + 3 - 1) with (Z.of_nat (n + 2)) by lia.
    change 3 with (Z.of_nat 3).
    now rewrite <- Nat2Z.inj_div, Nat2Z.id.
Qed.

Lemma getitem_nth_error {A : Type} (l : list A) (k : nat) (x : A) :
  nth_error l k = Some x -> getitem l (Z.of_nat k) = Ok x.
Proof.
  intros H. unfold getitem, len.
  assert (k < List.length l)%nat as Hk by (apply nth_error_Some; congruence).
  destruct (Z.of_nat k <? 0) eqn:E; [apply Z.ltb_lt in E; lia|].
  destruct (0 <=? Z.of_nat k) eqn:E1; [|apply Z.leb_gt in E1; lia].
  destruct (Z.of_nat k <? Z.of_nat (List.length l)) eqn:E2;
    [|apply Z.ltb_ge in E2; lia].
  cbn [andb]. now rewrite Nat2Z.id, H.
Qed.

Lemma getitem_beyond {A : Type} (l : list A) (k : nat) :
  (List.length l <= k)%nat -> getitem l (Z.of_nat k) = Raise IndexError.
Proof.
  intros H. unfold getitem, len.
  destruct (Z.of_nat k <? 0) eqn:E; [apply Z.ltb_lt in E; lia|].
  destruct (Z.of_nat k <? Z.of_nat (List.length l)) eqn:E2;
    [apply Z.ltb_lt in E2; lia|].
  now rewrite andb_false_r.
Qed.


End PySeqFacts.

(** ** [ModelFile.write_stl] *)

Module WriteFacts.
Import PyStr PySeq PySeqFacts FileSystem Storage FiletypeFacts.

Section Write.
Context {F : Type} {fmt : PyFormat F}.

(** The element of the comprehension at an index below [len(normals)]. *)
Lemma facet_at (vertices normals : list (vec3 F)) (k : nat) :
  (k < List.length normals)%nat ->
  (n <- getitem normals (Z.of_nat k) ;;
   Ok (_format_facet (slice vertices (Z.of_nat k) (Z.of_nat k + 3)) n))
  = Ok (block_at vertices normals (Z.of_nat k)).
Proof.
  intros Hk.
  destruct (nth_error normals k) as [n|] eqn:E;
    [|apply nth_error_None in E; lia].
  unfold block_at. now rewrite (getitem_nth_error _ _ _ E).
Qed.


(** With one normal per facet, every mesh of two facets or more makes the
    comprehension raise IndexError. *)
Lemma facets_per_facet (vertices normals : list (vec3 F)) :
  List.length normals = (List.length vertices / 3)%nat ->
  (6 <= List.length vertices)%nat ->
  facets vertices normals = Raise IndexError.
Proof.
  intros Hq Hn. unfold facets, len. rewrite range_3.
  set (n := List.length vertices) in *.
  set (q := List.length normals) in *.
  pose proof (Nat.div_mod_eq n 3) as Dn.
  pose proof (Nat.mod_upper_bound n 3 ltac:(lia)) as Mn.
  pose proof (Nat.div_mod_eq (n + 2) 3) as Dm.
  pose proof (Nat.mod_upper_bound (n + 2) 3 ltac:(lia)) as Mm.
  pose proof (Nat.div_mod_eq (q + 2) 3) as Dk.
  pose proof (Nat.mod_upper_bound (q + 2) 3 ltac:(lia)) as Mk.
  set (m := ((n + 2) / 3)%nat) in *.
  set (k := ((q + 2) / 3)%nat) in *.
  assert (k < m)%nat as Hkm by lia.
  replace m with (k + S (m - S k))%nat by lia.
  rewrite seq_app, map_app. cbn [seq map plus].
  apply comprehension_raise with (g := block_at vertices normals).
  - intros b Hb. apply in_map_iff in Hb. destruct Hb as [j [<- Hj]].
    apply in_seq in Hj.
    replace (3 * Z.of_nat j) with (Z.of_nat (3 * j)) by lia.
    apply facet_at. lia.
  - replace (3 * Z.of_nat k) with (Z.of_nat (3 * k)) by lia.
    rewrite getitem_beyond by lia. reflexivity.
Qed.

Lemma content_put (fs : FS) (p c : string) : content (put fs p c) p = Some c.
Proof. cbn. now rewrite String.eqb_refl. Qed.

(** What [close] leaves in the file after three [print]s on a file object
    just opened. *)
Lemma close_three_prints (fs : FS) (p a b c : string) :
  content (close fs (print (print (print (mk_file p "") a) b) c)) p
  = Some (a ++ newline ++ b ++ newline ++ c ++ newline).
Proof.
  unfold close, print. cbn [file_name file_buffer append].
  rewrite content_put. f_equal. now rewrite !PyStrFacts.append_assoc.
Qed.

(** What [write_stl] leaves in the file when every step succeeds. *)
Lemma write_stl_ok (fs : FS) (self : ModelFile) (m : Model.t F)
      (blocks : list string) :
  fst (filetype self) = Ok "stl" ->
  writable fs (Storage.path self) = true ->
  facets (Model.vertices m) (Model.normals m) = Ok blocks ->
  exists fs',
    write_stl fs self m = (Ok tt, fs', snd (filetype self))
    /\ content fs' (Storage.path self)
       = Some ("solid" ++ newline ++ join "" blocks ++ newline
                       ++ "endsolid" ++ newline).
Proof.
  intros Hf Hw Hb. unfold write_stl.
  pose proof (path_filetype self) as Hp.
  destruct (filetype self) as [ft self']. cbn [fst snd] in *. subst ft.
  cbn [String.eqb Ascii.eqb Bool.eqb negb]. rewrite Hp.
  unfold open_w. rewrite Hw, Hb.
  eexists. split; [reflexivity|]. apply close_three_prints.
Qed.

End Write.

End WriteFacts.

(** ** Normals and facet blocks *)

Module NormalsFacts.
Import PyStr PySeq PySeqFacts FileSystem Storage FiletypeFacts WriteFacts.

Section Normals.
Context {F : Type} {num : PyNum F}.

(** The normals of the specification: one row per facet. *)
Lemma calculate_normals_length (n : nat) (vertices : list (vec3 F)) :
  List.length vertices = (3 * n)%nat ->
  List.length (ModelSpec.calculate_normals vertices) = n.
Proof.
  revert vertices. induction n as [|n IH]; intros vs H.
  - destruct vs; [reflexivity | discriminate].
  - destruct vs as [|v0 [|v1 [|v2 vs]]]; cbn in H; try lia.
    cbn [ModelSpec.calculate_normals List.length].
    rewrite IH by lia. reflexivity.
Qed.

End Normals.


Section Blocks.
Context {F : Type} {fmt : PyFormat F}.


End Blocks.




(** C1 at the mesh of the unit test: the file [write_stl] writes.  The
    second and the third vertex line are not indented, and an empty line
    precedes [endsolid]; the text differs from the one of section 6. *)
Theorem write_stl_test_mesh_text :
  let r := write_stl Inputs.empty_fs (init "part.stl" None)
                     Inputs.test_mesh in
  fst (fst r) = Ok tt
  /\ content (snd (fst r)) "part.stl"
     = Some (lines ["solid";
                    "facet normal 0.000000 0.000000 1.000000";
                    "  outer loop";
                    "    vertex 0.000000 0.500000 0.000000";
                    "vertex 0.500000 -0.500000 0.000000";
                    "vertex -0.500000 -0.500000 0.000000";
                    "  endloop";
                    "endfacet";
                    "";
                    "endsolid"])
  /\ Section6.stl_text Inputs.test_vertices (fun _ => (0, 0, 1)%float)
     = lines ["solid";
              "facet normal 0.000000 0.000000 1.000000";
              "  outer loop";
              "    vertex 0.000000 0.500000 0.000000";
              "    vertex 0.500000 -0.500000 0.000000";
              "    vertex -0.500000 -0.500000 0.000000";
              "  endloop";
              "endfacet";
              "endsolid"]
  /\ content (snd (fst r)) "part.stl"
     <> Some (Section6.stl_text Inputs.test_vertices
                                (fun _ => (0, 0, 1)%float)).
Proof. vm_compute. repeat split. discriminate. Qed.

End NormalsFacts.

(** ** The scene *)

Module SceneFacts.
Import Scene.

Ltac unfold_methods :=
  unfold step, run, add_model, export_to_file, add_supporting_actor, clear,
    init, init_actors, display, reshape, draw_axes, button_press,
    button_motion, wheel_scroll, reset_view, set_mode_2d, set_mode_ortho,
    rotate_view, view_model_center, change_num_layers, scale_model,
    center_model, change_model_dimension, rotate_model, show_arrows,
    reinit_model, the_model, invalidate, modify, bindM, ret, raise, lift,
    get_scene, set_scene, load, store, outcome, update_current in *.

Ltac break_match :=
  match goal with
  | |- context [match ?x with _ => _ end] => destruct x eqn:?
  end.

Ltac break_match_hyp :=
  match goal with
  | H : context [match ?x with _ => _ end] |- _ => destruct x eqn:?
  end.

Ltac pair_eq :=
  match goal with
  | H : (_, _) = (_, _) |- _ => injection H as; subst
  end.

Ltac crunch :=
  unfold_methods; unfold_methods; cbn in *;
  repeat (first [pair_eq | break_match | break_match_hyp]; cbn in *).

Section Facts.
Context {F : Type} {num : PyNum F} {mth : PyMath F} {fmt : PyFormat F}
        {vm : ViewMethods F} {mm : ModelMethods F}.

Lemma init_actors_loop_scene (l : list ref) (w : world F) :
  scene (snd (init_actors_loop l w)) = scene w.
Proof.
  revert w. induction l as [|a l IH]; intros w; [reflexivity|].
  cbn [init_actors_loop]. unfold_methods.
  destruct (negb (Model.initialized (heap w a))); cbn.
  - destruct (model_init (heap w a)); cbn; [|reflexivity].
    now rewrite IH.
  - now rewrite IH.
Qed.

(** What each call does to the [model] and [actors] attributes. *)
Lemma step_model_actors (o : op) (w : world F) :
  let s := scene w in
  let s' := scene (step o w) in
  match o with
  | Add_model m => model s' = Some m /\ actors s' = (actors s ++ [m])%list
  | Add_supporting_actor a =>
      model s' = model s /\ actors s' = (actors s ++ [a])%list
  | Clear => model s' = model s /\ actors s' = []
  | _ => model s' = model s /\ actors s' = actors s
  end.
Proof.
  destruct o; cbn zeta;
    try (unfold step, run; cbn [snd];
         solve [ crunch; auto ]).
  - unfold step, run, init, bindM, init_actors, get_scene, modify, set_scene.
    cbn. pose proof (init_actors_loop_scene (actors (scene w)) w) as H.
    destruct (init_actors_loop (actors (scene w)) w) as [[[]|e] w'];
      cbn in *; rewrite ?H; auto.
  - unfold step, run, init_actors, bindM, get_scene. cbn.
    now rewrite init_actors_loop_scene.
Qed.

(** C9, as the code has it.  [add_model(m)] sets the model to [m] and
    appends it to [actors]; and every call other than [clear()] keeps the
    model, when one is set, among the actors. *)
Theorem model_stays_in_actors (o : op) (w : world F) :
  o <> Clear ->
  (forall r, model (scene w) = Some r -> In r (actors (scene w))) ->
  (forall m, model (scene (snd (add_model m w))) = Some m
             /\ In m (actors (scene (snd (add_model m w)))))
  /\ (forall r, model (scene (step o w)) = Some r ->
                In r (actors (scene (step o w)))).
Proof.
  intros Ho Hinv. split.
  - intros m. cbn. split; [reflexivity|]. apply in_or_app. right. now left.
  - intros r Hr. pose proof (step_model_actors o w) as H. cbn zeta in H.
    destruct o; try congruence; destruct H as [Hm Ha];
      rewrite ?Ha; rewrite Hm in Hr;
      try (now apply Hinv).
    + injection Hr as <-. apply in_or_app. right. now left.
    + apply in_or_app. left. now apply Hinv.
Qed.

(** C10.  The division of [change_model_dimension] is unguarded.  When
    the value of the named dimension compares equal to zero and both
    operands are Python numbers, the call raises ZeroDivisionError and
    leaves the world as it was.  When the division returns (the divisor is
    not zero, or an operand is a numpy scalar, where a zero divisor gives
    an infinity or a nan), [Model.scale] is called with
    [(value / current_value) * scaling_factor] and then [Model.init]: the
    model is the result of these two calls, nothing else changes, and an
    exception of either call is the outcome. *)
Theorem change_model_dimension_division
        (w : world F) (dimension : string) (value current_value : F)
        (r : ref) :
  model (scene w) = Some r ->
  model_getattr (heap w r) dimension = Ok current_value ->
  let factor := fmul (fdiv value current_value)
                     (Model.scaling_factor (heap w r)) in
  let call := change_model_dimension dimension value w in
  (feqb current_value (of_Z 0) = true ->
   numpy_scalar value = false ->
   numpy_scalar current_value = false ->
   call = (Raise ZeroDivisionError, w))
  /\ (feqb current_value (of_Z 0) = false
      \/ numpy_scalar value = true
      \/ numpy_scalar current_value = true ->
      call = scale_model factor w
      /\ (forall e, model_scale factor (heap w r) = Raise e ->
                    call = (Raise e, w))
      /\ (forall m' e,
             model_scale factor (heap w r) = Ok m' ->
             model_init m' = Raise e ->
             fst call = Raise e
             /\ scene (snd call) = scene w
             /\ heap (snd call) r = m'
             /\ forall q, q <> r -> heap (snd call) q = heap w q)
      /\ (forall m' m'',
             model_scale factor (heap w r) = Ok m' ->
             model_init m' = Ok m'' ->
             fst call = Ok tt
             /\ scene (snd call) = scene w
             /\ heap (snd call) r = m''
             /\ forall q, q <> r -> heap (snd call) q = heap w q)).
Proof.
  intros Hm Hg factor call. subst call.
  assert (forall q, (q =? r)%nat = false <-> q <> r) as Hne
      by (intros q; apply Nat.eqb_neq).
  split.
  - intros Hz Hv Hc.
    unfold change_model_dimension, the_model, bindM, get_scene, load, lift,
      truediv; cbn. rewrite Hm; cbn. now rewrite Hg, Hz, Hv, Hc.
  - intros Hd.
    assert (truediv value current_value = Ok (fdiv value current_value))
      as Hq.
    { unfold truediv. destruct (feqb current_value (of_Z 0)); [|reflexivity].
      destruct Hd as [Hd | [-> | ->]]; [discriminate | reflexivity |].
      now rewrite Bool.orb_true_r. }
    assert (change_model_dimension dimension value w = scale_model factor w)
      as Hs.
    { unfold change_model_dimension, the_model, bindM, get_scene, load, lift.
      cbn. rewrite Hm; cbn. now rewrite Hg, Hq. }
    rewrite Hs. split; [reflexivity|].
    unfold scale_model, reinit_model, the_model, bindM, get_scene, load,
      lift, store, ret; cbn. rewrite Hm; cbn.
    split; [|split].
    + intros e He. now rewrite He.
    + intros m' e H1 H2. rewrite H1; cbn. rewrite Hm; cbn.
      rewrite Nat.eqb_refl, H2; cbn. rewrite Nat.eqb_refl.
      repeat split. intros q Hq'. apply Hne in Hq'. now rewrite Hq'.
    + intros m' m'' H1 H2. rewrite H1; cbn. rewrite Hm; cbn.
      rewrite Nat.eqb_refl, H2; cbn. rewrite Nat.eqb_refl.
      repeat split. intros q Hq'. apply Hne in Hq'. now rewrite !Hq'.
Qed.

(** C8.  In the perspective branch, when the division, the two squares, the
    square root and the sine return, every actor is displayed, in order,
    with [eye_height] equal to
    sqrt(y'^2 + z^2) * sin(radians(-degrees(atan2(z, y')) - elevation)),
    where y' = y / zoom_factor. *)
Theorem display_passes_eye_height
        (w : world F) (width height y' y2 z2 r s : F) :
  mode_ortho (scene w) = false ->
  truediv (View.y (current (scene w))) (View.zoom_factor (current (scene w)))
  = Ok y' ->
  py_sq y' = Ok y2 ->
  py_sq (View.z (current (scene w))) = Ok z2 ->
  math_sqrt (fadd y2 z2) = Ok r ->
  m_sin (math_radians
           (fsub (fneg (math_degrees (m_atan2 (View.z (current (scene w))) y')))
                 (View.elevation (current (scene w))))) = Ok s ->
  display width height w
  = (Ok (map (fun actor =>
                (actor, with_eye_height (fmul r s) false (mode_2d (scene w))))
             (actors (scene w))),
     w).
Proof.
  intros Ho Hy Hy2 Hz2 Hr Hs.
  unfold display, bindM, get_scene, lift, ret, eye_height. cbn.
  rewrite Ho, Hy. cbn [bind]. rewrite Hy2. cbn [bind]. rewrite Hz2.
  cbn [bind]. rewrite Hr. cbn [bind]. rewrite Hs. reflexivity.
Qed.

(** In the other branch each actor gets the negated elevation instead. *)
Lemma display_ortho (w : world F) (width height : F) :
  mode_ortho (scene w) = true ->
  display width height w
  = (Ok (map (fun actor =>
                (actor,
                 with_elevation (fneg (View.elevation (current (scene w))))
                                true (mode_2d (scene w))))
             (actors (scene w))),
     w).
Proof.
  intros Ho. unfold display, bindM, get_scene, ret. cbn. now rewrite Ho.
Qed.

(** A failing division ends [display] before any actor is displayed. *)
Lemma display_zero_zoom (w : world F) (width height : F) :
  mode_ortho (scene w) = false ->
  feqb (View.zoom_factor (current (scene w))) (of_Z 0) = true ->
  numpy_scalar (View.y (current (scene w))) = false ->
  numpy_scalar (View.zoom_factor (current (scene w))) = false ->
  display width height w = (Raise ZeroDivisionError, w).
Proof.
  intros Ho Hz Hy Hf.
  unfold display, bindM, get_scene, lift, eye_height, truediv.
  cbn. now rewrite Ho, Hz, Hy, Hf.
Qed.

(** Only the setter of [mode_2d] changes which view is current. *)
Lemma step_current_view (o : op) (w : world F) :
  (forall value, o <> Set_mode_2d value) ->
  current_view (scene (step o w)) = current_view (scene w).
Proof.
  intros Ho.
  destruct o;
    try (unfold step, run; cbn [snd]; solve [ crunch; auto; congruence ]).
  - unfold step, run, init, bindM, init_actors, get_scene, modify, set_scene.
    cbn. pose proof (init_actors_loop_scene (actors (scene w)) w) as H.
    destruct (init_actors_loop (actors (scene w)) w) as [[[]|e] w'];
      cbn in *; rewrite ?H; auto.
  - unfold step, run, init_actors, bindM, get_scene. cbn.
    now rewrite init_actors_loop_scene.
  - now contradiction (Ho value).
Qed.

(** While the 2D view is current, no call other than [reset_view(True)]
    changes the 3D view. *)
Lemma step_in_2d_keeps_3d_view (o : op) (w : world F) :
  current_view (scene w) = view_ortho_ref ->
  o <> Reset_view true ->
  view_perspective (scene (step o w)) = view_perspective (scene w).
Proof.
  intros Hc Ho.
  destruct o;
    try (unfold step, run; cbn [snd]; solve [ crunch; auto; congruence ]).
  - unfold step, run, init, bindM, init_actors, get_scene, modify, set_scene.
    cbn. pose proof (init_actors_loop_scene (actors (scene w)) w) as H.
    destruct (init_actors_loop (actors (scene w)) w) as [[[]|e] w'];
      cbn in *; rewrite ?H; auto.
  - unfold step, run, init_actors, bindM, get_scene. cbn.
    now rewrite init_actors_loop_scene.
Qed.

Lemma steps_in_2d_keep_3d_view (calls : list op) (w : world F) :
  Forall (fun o => o <> Reset_view true /\ forall value, o <> Set_mode_2d value)
         calls ->
  current_view (scene w) = view_ortho_ref ->
  let w' := fold_left (fun w o => step o w) calls w in
  current_view (scene w') = view_ortho_ref
  /\ view_perspective (scene w') = view_perspective (scene w).
Proof.
  intros Hall. revert w.
  induction Hall as [|o calls [Hr Hs] _ IH]; intros w Hc; cbn.
  - now split.
  - destruct (IH (step o w)) as [H1 H2].
    + now rewrite step_current_view.
    + split; [exact H1|]. rewrite H2. now apply step_in_2d_keeps_3d_view.
Qed.

(** C7.  Setting [mode_2d] only changes which view [current_view] refers
    to: both views keep their state.  After switching to the 2D view and
    back, [current_view] is the 3D view with the state it had before, also
    when calls other than [reset_view(True)] and the setter itself were
    made in between; and [mode_2d] reads true exactly when [current_view]
    is the 2D view. *)
Theorem mode_2d_switch_restores_view (calls : list op) (w : world F) :
  Forall (fun o => o <> Reset_view true /\ forall value, o <> Set_mode_2d value)
         calls ->
  let w1 := snd (set_mode_2d true w) in
  let w2 := snd (set_mode_2d false w1) in
  let w3 := snd (set_mode_2d false
                   (fold_left (fun w o => step o w) calls w1)) in
  (forall value : bool,
      view_ortho (scene (snd (set_mode_2d value w))) = view_ortho (scene w)
      /\ view_perspective (scene (snd (set_mode_2d value w)))
         = view_perspective (scene w))
  /\ current_view (scene w1) = view_ortho_ref
  /\ current_view (scene w2) = view_perspective_ref
  /\ current (scene w2) = view_perspective (scene w)
  /\ current_view (scene w3) = view_perspective_ref
  /\ current (scene w3) = view_perspective (scene w)
  /\ (mode_2d (scene w) = true <-> current_view (scene w) = view_ortho_ref).
Proof.
  intros Hall.
  destruct (steps_in_2d_keep_3d_view calls (snd (set_mode_2d true w)) Hall
              eq_refl) as [_ H3].
  cbn zeta in H3. cbn. repeat split.
  - exact H3.
  - unfold mode_2d. destruct (current_view (scene w)); congruence.
  - unfold mode_2d. now intros ->.
Qed.

End Facts.

End SceneFacts.

(** ** The [modified] flag *)

Module ModifiedFacts.
Import Scene SceneFacts.

Ltac unfold_model :=
  cbn [model_scale model_translate model_rotate_abs model_init
       model_getattr model_bounding_box model_letter_axis_map
       ModelSpec.methods] in *;
  unfold ModelSpec.scale, ModelSpec.translate, ModelSpec.rotate_abs,
    ModelSpec.rotate_rel, ModelSpec.init, ModelSpec.load_data,
    ModelSpec.with_rotation, Model.set_modified, Model.set_offset,
    Model.set_num_layers_to_draw, Model.set_arrows_enabled in *.

Ltac result_eq :=
  match goal with
  | H : Ok _ = Ok _ |- _ => injection H as; subst
  | H : Raise _ = Ok _ |- _ => discriminate H
  | H : Ok _ = Raise _ |- _ => discriminate H
  end.

Ltac eqb_subst :=
  match goal with
  | H : Nat.eqb _ _ = true |- _ => apply Nat.eqb_eq in H; subst
  end.

Ltac crunch_model :=
  unfold_methods; unfold_methods; unfold_model; cbn in *;
  repeat (first [pair_eq | result_eq | break_match | break_match_hyp];
          cbn in *).

Section Modified.
Context {F : Type} {num : PyNum F} {mth : PyMath F} {fmt : PyFormat F}
        {vm : ViewMethods F}.

Local Existing Instance ModelSpec.methods.

Lemma init_actors_loop_modified (l : list ref) (w : world F) (r : ref) :
  Model.modified (heap (snd (init_actors_loop l w)) r)
  = Model.modified (heap w r).
Proof.
  revert w. induction l as [|a l IH]; intros w; [reflexivity|].
  cbn [init_actors_loop]. unfold_methods. unfold_model.
  destruct (negb (Model.initialized (heap w a))); cbn.
  - rewrite IH. cbn. destruct (Nat.eqb r a) eqn:E; [|reflexivity].
    apply Nat.eqb_eq in E. now subst.
  - now rewrite IH.
Qed.

(** No call other than [export_to_file] clears a flag that is set. *)
Lemma step_keeps_modified (o : op) (w : world F) (r : ref) :
  (forall fs mf, o <> Export_to_file fs mf) ->
  Model.modified (heap w r) = true ->
  Model.modified (heap (step o w) r) = true.
Proof.
  intros Ho Hm.
  destruct o;
    try (unfold step, run; cbn [snd];
         solve [ crunch_model; repeat eqb_subst; auto; congruence ]).
  - now contradiction (Ho fs model_file).
  - unfold step, run, init, bindM, init_actors, get_scene, modify, set_scene.
    cbn.
    pose proof (init_actors_loop_modified (actors (scene w)) w r) as H.
    destruct (init_actors_loop (actors (scene w)) w) as [[[]|e] w'];
      cbn in *; congruence.
  - unfold step, run, init_actors, bindM, get_scene. cbn.
    now rewrite init_actors_loop_modified.
Qed.

Lemma export_to_file_cases (fs : FileSystem.FS) (mf : Storage.ModelFile)
      (w : world F) :
  (exists e fs' mf', export_to_file fs mf w = (Raise e, fs', mf', w))
  \/ (exists r fs' mf',
         model (scene w) = Some r
         /\ Storage.write_stl fs mf (heap w r) = (Ok tt, fs', mf')
         /\ export_to_file fs mf w
            = (Ok tt, fs', mf',
               snd (store r (Model.set_modified false (heap w r)) w))).
Proof.
  unfold export_to_file. destruct (model (scene w)) as [r|].
  - destruct (Storage.write_stl fs mf (heap w r))
      as [[[[]|e] fs'] mf'] eqn:E.
    + right. exists r, fs', mf'. auto.
    + left. now exists e, fs', mf'.
  - left. destruct (Storage.filetype mf) as [[ft|e] mf'].
    + destruct (negb _); eauto.
    + eauto.
Qed.

(** C6.  [load_data] leaves the flag false; [scale] (with a positive
    factor), [translate], [rotate_rel] and [rotate_abs] leave it true;
    [export_to_file] clears the flag of the model when [write_stl] returns
    and changes nothing when [write_stl] raises; and a set flag is cleared
    by no other call of a scene method. *)
Theorem modified_flag_lifecycle :
  (forall vertices normals (m m' : Model.t F),
      ModelSpec.load_data vertices normals m = Ok m' ->
      Model.modified m' = false)
  /\ (forall factor (m : Model.t F),
         fleb factor (of_Z 0) = false ->
         exists m', ModelSpec.scale factor m = Ok m'
                    /\ Model.modified m' = true)
  /\ (forall dx dy dz (m : Model.t F),
         exists m', ModelSpec.translate dx dy dz m = Ok m'
                    /\ Model.modified m' = true)
  /\ (forall angle axis (m : Model.t F),
         exists m', ModelSpec.rotate_rel angle axis m = Ok m'
                    /\ Model.modified m' = true)
  /\ (forall angle axis (m : Model.t F),
         exists m', ModelSpec.rotate_abs angle axis m = Ok m'
                    /\ Model.modified m' = true)
  /\ (forall fs mf (w : world F) r res fs' mf' w',
         model (scene w) = Some r ->
         export_to_file fs mf w = (res, fs', mf', w') ->
         match fst (fst (Storage.write_stl fs mf (heap w r))) with
         | Ok _ => res = Ok tt /\ Model.modified (heap w' r) = false
         | Raise e => res = Raise e /\ w' = w
         end)
  /\ (forall (o : op) (w : world F) r,
         Model.modified (heap w r) = true ->
         Model.modified (heap (step o w) r) = false ->
         exists fs mf,
           o = Export_to_file fs mf
           /\ fst (run o w) = Ok tt
           /\ model (scene w) = Some r).
Proof.
  repeat apply conj.
  - intros vs ns m m'. unfold ModelSpec.load_data.
    destruct (negb _); [discriminate|]. now intros [= <-].
  - intros f m Hf. unfold ModelSpec.scale. rewrite Hf. eauto.
  - intros. unfold ModelSpec.translate. eauto.
  - intros a ax m. unfold ModelSpec.rotate_rel.
    destruct (Model.rotation m) as [[rx ry] rz]. eauto.
  - intros a ax m. unfold ModelSpec.rotate_abs.
    destruct (Model.rotation m) as [[rx ry] rz]. eauto.
  - intros fs mf w r res fs' mf' w' Hm He.
    unfold export_to_file in He. rewrite Hm in He.
    destruct (Storage.write_stl fs mf (heap w r)) as [[[[]|e] fs1] mf1];
      cbn [fst]; injection He as <- <- <- <-; split; try reflexivity.
    cbn. now rewrite Nat.eqb_refl.
  - intros o w r Ht Hf.
    destruct o;
      try (rewrite step_keeps_modified in Hf
            by (assumption || discriminate); discriminate).
    exists fs, model_file. split; [reflexivity|].
    unfold step, run in *.
    destruct (export_to_file_cases fs model_file w)
      as [[e [fs' [mf' H]]] | [r' [fs' [mf' [Hm [_ H]]]]]];
      rewrite H in *; cbn [fst snd] in *.
    + congruence.
    + split; [reflexivity|]. cbn in Hf.
      destruct (Nat.eqb r r') eqn:E; [|congruence].
      apply Nat.eqb_eq in E. now subst.
Qed.

End Modified.

End ModifiedFacts.

(** ** The scene on concrete inputs *)

Module RealFacts.
Import Scene SceneFacts.
Local Open Scope R_scope.

Lemma eqb_false (a b : R) : a <> b -> RealNum.eqb a b = false.
Proof. intros H. unfold RealNum.eqb. now destruct (Req_dec_T a b). Qed.

Lemma ltb_false (a b : R) : b <= a -> RealNum.ltb a b = false.
Proof. intros H. unfold RealNum.ltb. destruct (Rlt_dec a b); [lra | easy]. Qed.

Lemma leb_false (a b : R) : b < a -> RealNum.leb a b = false.
Proof. intros H. unfold RealNum.leb. destruct (Rle_dec a b); [lra | easy]. Qed.

(** The sine of the angle of a point to the right of the origin. *)
Lemma sqrt_sin_atan (y z : R) :
  0 < y -> sqrt (y * y + z * z) * sin (atan (z / y)) = z.
Proof.
  intros Hy.
  pose proof (atan_bound (z / y)) as [Hlo Hhi].
  pose proof (cos_gt_0 (atan (z / y)) ltac:(lra) ltac:(lra)) as Hc.
  pose proof (tan_atan (z / y)) as Ht. unfold tan in Ht.
  set (t := atan (z / y)) in *.
  assert (sin t = z / y * cos t) as Hs.
  { rewrite <- Ht. field. lra. }
  pose proof (sin2_cos2 t) as H1. unfold Rsqr in H1. rewrite Hs in H1.
  assert (cos t * cos t * (y * y + z * z) = y * y) as H2.
  { assert (z / y * cos t * (z / y * cos t) * (y * y)
            = z * z * (cos t * cos t)) as E by (field; lra).
    nra. }
  assert (0 <= y * y + z * z) as Hpos by nra.
  assert (sqrt (y * y + z * z) * cos t = y) as H3.
  { apply Rsqr_inj.
    - apply Rmult_le_pos; [apply sqrt_pos | lra].
    - lra.
    - unfold Rsqr.
      replace (sqrt (y * y + z * z) * cos t * (sqrt (y * y + z * z) * cos t))
        with (sqrt (y * y + z * z) * sqrt (y * y + z * z) * (cos t * cos t))
        by ring.
      rewrite sqrt_sqrt by assumption. lra. }
  rewrite Hs.
  replace (sqrt (y * y + z * z) * (z / y * cos t))
    with (z / y * (sqrt (y * y + z * z) * cos t)) by ring.
  rewrite H3. field. lra.
Qed.

(** Over the reals, a level camera in front of the model has its line of
    sight at height [- z]. *)
Lemma eye_height_level (v : View.t R) :
  View.elevation v = 0 -> View.zoom_factor v <> 0 ->
  0 < View.y v / View.zoom_factor v ->
  eye_height v = Ok (- View.z v).
Proof.
  intros He Hz Hy. unfold eye_height, truediv, math_sqrt.
  cbn [feqb fltb fdiv fadd fsub fmul fneg fsqrt of_Z real_num
       py_sq m_sin m_atan2 real_math bind].
  rewrite eqb_false by assumption. cbn [bind].
  set (y := View.y v / View.zoom_factor v) in *.
  rewrite ltb_false by nra. cbn [bind]. f_equal.
  unfold math_degrees, math_radians.
  cbn [fmul fdiv of_Z pi real_num real_math]. rewrite He.
  unfold RealNum.atan2. destruct (Rlt_dec 0 y) as [_|]; [|lra].
  replace ((- (atan (View.z v / y) * (180 / PI)) - 0) * (PI / 180))
    with (- atan (View.z v / y)) by (field; apply PI_neq0).
  rewrite sin_neg.
  replace (sqrt (y * y + View.z v * View.z v) * - sin (atan (View.z v / y)))
    with (- (sqrt (y * y + View.z v * View.z v) * sin (atan (View.z v / y))))
    by ring.
  now rewrite sqrt_sin_atan.
Qed.

(** The example of section 8: y = 100, z = 50, zoom factor 1, elevation 0
    give the eye height -50. *)
Lemma eye_height_camera : eye_height Inputs.camera = Ok (-50).
Proof.
  rewrite eye_height_level; cbn; try reflexivity; lra.
Qed.

Lemma display_passes_eye_height_witness :
  mode_ortho (scene Inputs.two_actors) = false
  /\ display 800 600 Inputs.two_actors
     = (Ok [(0%nat, with_eye_height (-50) false false);
            (1%nat, with_eye_height (-50) false false)],
        Inputs.two_actors).
Proof.
  split; [reflexivity|].
  pose (r := sqrt (100 / 1 * (100 / 1) + 50 * 50)).
  pose (s := sin ((- (RealNum.atan2 50 (100 / 1) * (180 / PI)) - 0)
                  * (PI / 180))).
  assert (truediv 100 1 = Ok (100 / 1)) as Hy.
  { unfold truediv. cbn. rewrite eqb_false by lra. reflexivity. }
  assert (math_sqrt (100 / 1 * (100 / 1) + 50 * 50) = Ok r) as Hr.
  { unfold math_sqrt. cbn. rewrite ltb_false by lra. reflexivity. }
  assert (r * s = -50) as E.
  { pose proof eye_height_camera as H. unfold eye_height in H.
    cbn [Inputs.camera View.y View.z View.zoom_factor View.elevation] in H.
    rewrite Hy in H. cbn [bind py_sq real_math fadd real_num] in H.
    rewrite Hr in H. cbn in H. now injection H. }
  rewrite <- E.
  exact (@display_passes_eye_height R _ _ Inputs.two_actors 800 600
           (100 / 1) (100 / 1 * (100 / 1)) (50 * 50) r s
           eq_refl Hy eq_refl eq_refl Hr eq_refl).
Defined.

Lemma mode_2d_switch_restores_view_witness :
  let gestures := [Button_motion 10 5 true false false; Wheel_scroll 1;
                   Rotate_view 30 60; Reset_view false] in
  let w := Inputs.world_of Inputs.fresh_scene in
  let w1 :=
    fold_left (fun w o => Inputs.real_step o w) gestures
              (Inputs.real_step (Set_mode_2d true) w) in
  current (scene (Inputs.real_step (Set_mode_2d false) w1)) = Inputs.camera.
Proof.
  cbn zeta.
  refine (proj1 (proj2 (proj2 (proj2 (proj2 (proj2
    (@mode_2d_switch_restores_view R _ _ _ Inputs.additive_views
       ModelSpec.methods
       [Button_motion 10 5 true false false; Wheel_scroll 1;
        Rotate_view 30 60; Reset_view false]
       (Inputs.world_of Inputs.fresh_scene) _))))))).
  repeat constructor; discriminate.
Defined.

(** C9, as the specification states it, fails: after [add_model] and
    [clear()] the model is still set and is not among the actors. *)
Lemma clear_drops_model_from_actors :
  let w := Inputs.real_step Clear
             (Inputs.real_step (Add_model 0%nat)
                               (Inputs.world_of Inputs.fresh_scene)) in
  model (scene w) = Some 0%nat
  /\ actors (scene w) = []
  /\ ~ In 0%nat (actors (scene w)).
Proof. cbn. repeat split. intros []. Qed.

Lemma model_stays_in_actors_witness :
  let w := Inputs.real_step (Add_model 0%nat)
                            (Inputs.world_of Inputs.fresh_scene) in
  Scale_model 2 <> Clear
  /\ (forall r, model (scene w) = Some r -> In r (actors (scene w)))
  /\ In 0%nat (actors (scene (Inputs.real_step (Scale_model 2) w))).
Proof.
  cbn zeta.
  assert (Scale_model 2 <> @Clear R) as Hne by discriminate.
  assert (forall r,
             model (scene (Inputs.real_step (Add_model 0%nat)
                             (Inputs.world_of Inputs.fresh_scene))) = Some r ->
             In r (actors (scene (Inputs.real_step (Add_model 0%nat)
                                    (Inputs.world_of Inputs.fresh_scene)))))
    as Hinv.
  { cbn. intros r [= <-]. now left. }
  split; [exact Hne|]. split; [exact Hinv|].
  apply (proj2 (@model_stays_in_actors R _ _ _ Inputs.additive_views
                  ModelSpec.methods (Scale_model 2) _ Hne Hinv)).
  exact (proj1 (@step_model_actors R _ _ _ Inputs.additive_views
                  ModelSpec.methods (Scale_model 2) _)).
Defined.

Lemma modified_flag_lifecycle_witness :
  let failed :=
    export_to_file Inputs.empty_fs (Storage.init "a.txt" None)
                   Inputs.edited_world in
  let saved :=
    export_to_file Inputs.empty_fs (Storage.init "a.stl" None)
                   Inputs.edited_world in
  Model.modified (heap Inputs.edited_world 0%nat) = true
  /\ (fst (fst (fst failed))
      = Raise (ModelFileError "Unsupported file extension: .txt")
      /\ snd failed = Inputs.edited_world)
  /\ (fst (fst (fst saved)) = Ok tt
      /\ Model.modified (heap (snd saved) 0%nat) = false)
  /\ (exists m', ModelSpec.scale 2 Inputs.triangle = Ok m'
                 /\ Model.modified m' = true).
Proof.
  pose proof (@ModifiedFacts.modified_flag_lifecycle
                R _ _ _ Inputs.additive_views)
    as [_ [Hscale [_ [_ [_ [Hexport _]]]]]].
  assert (forall x : result unit * FileSystem.FS * Storage.ModelFile
                     * world R,
             x = (fst (fst (fst x)), snd (fst (fst x)), snd (fst x), snd x))
    as Hx by (now intros [[[? ?] ?] ?]).
  cbn zeta. split; [reflexivity|]. split; [|split].
  - pose proof (Hexport Inputs.empty_fs (Storage.init "a.txt" None)
                        Inputs.edited_world 0%nat _ _ _ _ eq_refl (Hx _))
      as H.
    assert (fst (fst (Storage.write_stl
                        Inputs.empty_fs (Storage.init "a.txt" None)
                        (heap Inputs.edited_world 0%nat)))
            = Raise (ModelFileError "Unsupported file extension: .txt"))
      as Hw by reflexivity.
    rewrite Hw in H. exact H.
  - pose proof (Hexport Inputs.empty_fs (Storage.init "a.stl" None)
                        Inputs.edited_world 0%nat _ _ _ _ eq_refl (Hx _))
      as H.
    assert (fst (fst (Storage.write_stl
                        Inputs.empty_fs (Storage.init "a.stl" None)
                        (heap Inputs.edited_world 0%nat)))
            = Ok tt)
      as Hw by reflexivity.
    rewrite Hw in H. exact H.
  - apply Hscale. apply leb_false. cbn. lra.
Defined.

End RealFacts.

Module FloatFacts.
Import Scene SceneFacts.

Local Existing Instance ModelSpec.methods.

Lemma change_model_dimension_division_witness :
  (model_getattr (heap Inputs.thin_world 0%nat) "width" = Ok 0%float
   /\ change_model_dimension "width" 3%float Inputs.thin_world
      = (Raise ZeroDivisionError, Inputs.thin_world))
  /\ (model_getattr (heap Inputs.float_world 0%nat) "width" = Ok 1%float
      /\ fst (change_model_dimension "width" 3%float Inputs.float_world)
         = Ok tt
      /\ heap (snd (change_model_dimension "width" 3%float
                                           Inputs.float_world)) 0%nat
         = Model.mk Inputs.two_facets Inputs.per_vertex_normals
                    0%float 0%float 0%float 3%float (0, 0, 0)%float
                    true true 0 false).
Proof.
  split; (split; [reflexivity|]).
  - pose proof (@change_model_dimension_division float _ ModelSpec.methods
                  Inputs.thin_world "width" 3%float 0%float 0%nat
                  eq_refl eq_refl) as H.
    cbn zeta in H. destruct H as [H _].
    exact (H eq_refl eq_refl eq_refl).
  - pose proof (@change_model_dimension_division float _ ModelSpec.methods
                  Inputs.float_world "width" 3%float 1%float 0%nat
                  eq_refl eq_refl) as H.
    cbn zeta in H. destruct H as [_ H].
    destruct (H (or_introl eq_refl)) as [_ [_ [_ H4]]].
    destruct (H4 _ _ eq_refl eq_refl) as [H5 [_ [H6 _]]].
    split; [exact H5 | exact H6].
Defined.

(** C10, as stated, fails when the dimension is a numpy scalar, as the
    extents of a mesh held in numpy arrays are: the width of the mesh is
    zero, and [change_model_dimension("width", 10.0)] does not raise; the
    division gives an infinity, the model is scaled by it and marked
    modified. *)
Lemma change_model_dimension_numpy_zero :
  model_getattr (heap Inputs.numpy_thin_world 0%nat) "width"
  = Ok (Numpy.Np 0%float)
  /\ fst (change_model_dimension "width" (Numpy.Py 10%float)
                                 Inputs.numpy_thin_world)
     = Ok tt
  /\ Model.scaling_factor
       (heap (snd (change_model_dimension "width" (Numpy.Py 10%float)
                                          Inputs.numpy_thin_world)) 0%nat)
     = Numpy.Np infinity
  /\ Model.modified
       (heap (snd (change_model_dimension "width" (Numpy.Py 10%float)
                                          Inputs.numpy_thin_world)) 0%nat)
     = true
  /\ Model.modified (heap Inputs.numpy_thin_world 0%nat) = false.
Proof. vm_compute. repeat split. Qed.

End FloatFacts.

(** ** The unit tests of [tests/unit/lib/gl/test_stlmodel.py] *)

Module StlModelTest.
Import Inputs.

Lemma test_normal_data_empty :
  exists m, setUp = Ok m /\ ModelSpec.normal_data_empty m = false.
Proof. eexists. split; reflexivity. Qed.

(** [test_calculate_normals] passes for an implementation that returns
    the facet normal once for each vertex, and fails for the one of the
    specification, which returns one row per facet. *)
Lemma test_calculate_normals_rows :
  test_calculate_normals (fun m => vertex_normals (Model.vertices m)) = true
  /\ test_calculate_normals
       (fun m => ModelSpec.calculate_normals (Model.vertices m)) = false.
Proof. split; reflexivity. Qed.

Lemma test_init :
  exists m m', setUp = Ok m /\ ModelSpec.init m = Ok m'
               /\ Model.initialized m' = true.
Proof. do 2 eexists. repeat split. Qed.

Lemma test_scale :
  exists m m', setUp = Ok m /\ Model.modified m = false
               /\ ModelSpec.scale 0x1.199999999999ap+0%float m = Ok m'
               /\ Model.modified m' = true.
Proof. do 2 eexists. repeat split. Qed.

Lemma test_translate :
  exists m m', setUp = Ok m /\ Model.modified m = false
               /\ ModelSpec.translate 1%float 2%float 3%float m = Ok m'
               /\ Model.modified m' = true.
Proof. do 2 eexists. repeat split. Qed.

Lemma test_rotate_rel :
  exists m m', setUp = Ok m /\ Model.modified m = false
               /\ ModelSpec.rotate_rel 90%float Model.AXIS_X m = Ok m'
               /\ Model.modified m' = true.
Proof. do 2 eexists. repeat split. Qed.

Lemma test_rotate_abs :
  exists m m', setUp = Ok m /\ Model.modified m = false
               /\ ModelSpec.rotate_abs 90%float Model.AXIS_X m = Ok m'
               /\ Model.modified m' = true.
Proof. do 2 eexists. repeat split. Qed.

End StlModelTest.

(** * Further properties of the storage layer *)

Module StorageExtras.
Import PyStr PyStrFacts PySeq PySeqFacts OsPath OsPathFacts FileSystem.
Import Storage FiletypeFacts WriteFacts Cache.

Lemma unset_or_true (c : option string) (v : string) :
  unset_or c v = true -> forall x, c = Some x -> x = v.
Proof. intros H x ->. now apply String.eqb_eq. Qed.

(** X1.  [__init__] and the [path] setter leave no cached attribute that
    belongs to another path, the property reads keep it so, and then
    [dirname], [basename] and [extension] return the values of the current
    path, whichever of them were read before. *)
Theorem cached_attributes_follow_path (self : ModelFile) :
  coherent self = true ->
  (forall p t, coherent (init p t) = true)
  /\ (forall s p, coherent (set_path s p) = true
                  /\ Storage.path (set_path s p) = p)
  /\ fst (dirname self) = OsPath.dirname (Storage.path self)
  /\ fst (basename self) = OsPath.basename (Storage.path self)
  /\ fst (extension self) = ext_of (Storage.path self)
  /\ coherent (snd (dirname self)) = true
  /\ coherent (snd (basename self)) = true
  /\ coherent (snd (extension self)) = true
  /\ coherent (snd (filetype self)) = true.
Proof.
  intros H. split; [reflexivity|]. split; [now split|].
  destruct self as [p t d b e z]. unfold coherent in H. cbn in H.
  apply andb_true_iff in H. destruct H as [H He].
  apply andb_true_iff in H. destruct H as [Hd Hb].
  unfold dirname, basename, extension, filetype, coherent, Storage.path,
    ext_of in *.
  destruct d as [d|], b as [b|], e as [e|], t as [t|];
    cbn -[OsPath.dirname OsPath.basename OsPath.splitext lower mem] in *;
    repeat match goal with
           | E : String.eqb _ _ = true |- _ => apply String.eqb_eq in E; subst
           end;
    repeat match goal with
           | |- context [negb (mem ?x ?l)] => destruct (negb (mem x l))
           end;
    cbn -[OsPath.dirname OsPath.basename OsPath.splitext lower mem];
    rewrite ?String.eqb_refl; repeat split.
Qed.

Lemma cached_attributes_follow_path_witness :
  let self := snd (extension (set_path (snd (extension (init "a/b.stl" None)))
                                       "c/d.GCODE")) in
  coherent self = true
  /\ fst (extension self) = ".gcode"
  /\ fst (basename self) = "d.GCODE"
  /\ fst (dirname self) = "c".
Proof.
  cbn zeta.
  pose proof (cached_attributes_follow_path
                (snd (extension (set_path (snd (extension
                                                  (init "a/b.stl" None)))
                                          "c/d.GCODE")))
                eq_refl) as [_ [_ [Hd [Hb [He _]]]]].
  split; [reflexivity|]. split; [exact He|]. split; [exact Hb | exact Hd].
Defined.

(** X2.  [size] is read from the file system once: after a successful read
    the same value is returned whatever the file has become, until the
    path is assigned; a failed read is not remembered. *)
Theorem size_is_cached (fs fs' : FS) (self self' : ModelFile) (n : Z) :
  size fs self = (Ok n, self') ->
  size fs' self' = (Ok n, self')
  /\ Storage.path self' = Storage.path self
  /\ (forall p, _size (set_path self' p) = None)
  /\ (forall e s, size fs' self = (Raise e, s) -> s = self).
Proof.
  unfold size. intros H. destruct (_size self) as [k|] eqn:E.
  - injection H as <- <-. rewrite E. repeat split. discriminate.
  - destruct (getsize fs (Storage.path self)) as [k|e] eqn:G;
      [|discriminate].
    injection H as <- <-. cbn. repeat split.
    intros e s. destruct (getsize fs' (Storage.path self)); [discriminate|].
    now intros [= _ <-].
Qed.

Lemma size_is_cached_witness :
  exists self',
    size Inputs.gcode_fs (init "job.gcode" None) = (Ok 5, self')
    /\ size Inputs.empty_fs self' = (Ok 5, self')
    /\ fst (size Inputs.empty_fs (init "job.gcode" None))
       = Raise (OSError "job.gcode").
Proof.
  eexists. split; [reflexivity|]. split; [|reflexivity].
  exact (proj1 (size_is_cached Inputs.gcode_fs Inputs.empty_fs
                  (init "job.gcode" None) _ 5 eq_refl)).
Defined.

(** X3.  The filetype resolved from the extension is that of the file name
    alone: the directory part of the path, whatever dots it holds, plays no
    role. *)
Theorem filetype_ignores_directory (dir name : string) :
  contains sep name = false ->
  fst (filetype (init (in_dir (Some dir) name) None))
  = fst (filetype (init name None)).
Proof.
  intros H. rewrite !filetype_init. unfold ext_of.
  rewrite (basename_in_dir (Some dir) name H).
  pose proof (basename_in_dir None name H) as Hn. cbn [in_dir] in Hn.
  now rewrite Hn.
Qed.

Lemma filetype_ignores_directory_witness :
  fst (filetype (init "models.stl/job.gcode" None)) = Ok "gcode"
  /\ fst (filetype (init "parts.gcode/notes" None))
     = Raise (ModelFileError "Unsupported file extension: ").
Proof.
  split.
  - exact (filetype_ignores_directory "models.stl" "job.gcode" eq_refl).
  - exact (filetype_ignores_directory "parts.gcode" "notes" eq_refl).
Defined.

Section Read.
Context {P : Parsers}.

(** X4.  [read] on an object built with a type override that is neither
    "gcode" nor "stl" raises KeyError for that key; a type resolved from
    the extension is always one of the two keys of the loader table. *)
Theorem read_unknown_override
        (fs : FS) (path t : string) (cb : option Callback) :
  t <> "gcode" -> t <> "stl" ->
  read fs (init path (Some t)) cb = (Raise (KeyError t), init path (Some t))
  /\ (forall path' t',
         fst (filetype (init path' None)) = Ok t' ->
         t' = "gcode" \/ t' = "stl").
Proof.
  intros Hg Hs. split.
  - unfold read, _loaders. cbn.
    apply String.eqb_neq in Hg. apply String.eqb_neq in Hs.
    now rewrite Hg, Hs.
  - intros path' t'. rewrite filetype_init.
    destruct (mem (ext_of path') [".gcode"; ".nc"; ".stl"]); [|discriminate].
    destruct (mem (ext_of path') [".gcode"; ".nc"]); intros [= <-]; auto.
Qed.

(** X5.  When the file opens, the parser of the filetype loads it and
    [parse] returns, [read] returns a new model of the matching class
    together with the parsed data. *)
Theorem read_returns_model_and_data
        (fs : FS) (self : ModelFile) (cb : option Callback) (c : string) :
  open_r fs (Storage.path self) = Ok c ->
  (forall p data,
      fst (filetype self) = Ok "gcode" ->
      GcodeParser_load GcodeParser_new c = Ok p ->
      GcodeParser_parse p cb = Ok data ->
      fst (read fs self cb) = Ok (LoadedGcode GcodeModel_new data))
  /\ (forall p data,
         fst (filetype self) = Ok "stl" ->
         StlParser_load (StlParser_new c) c = Ok p ->
         StlParser_parse p cb = Ok data ->
         fst (read fs self cb) = Ok (LoadedStl StlModel_new data)).
Proof.
  intros Ho. rewrite <- (path_filetype self) in Ho.
  split; intros p data Hf Hl Hp; rewrite ReadFacts.read_unfold, Hf; cbn;
    [unfold _load_gcode_model | unfold _load_stl_model];
    rewrite Ho; cbn [bind]; rewrite Hl; cbn [bind]; now rewrite Hp.
Qed.

(** X6.  When no file exists at the path, [read] raises the OSError of
    [open] whatever the parsers would do. *)
Theorem read_missing_file
        (fs : FS) (self : ModelFile) (cb : option Callback) :
  content fs (Storage.path self) = None ->
  fst (filetype self) = Ok "gcode" \/ fst (filetype self) = Ok "stl" ->
  fst (read fs self cb) = Raise (OSError (Storage.path self)).
Proof.
  intros Hc Hf. rewrite ReadFacts.read_unfold.
  rewrite <- (path_filetype self) in Hc.
  destruct Hf as [Hf | Hf]; rewrite Hf; cbn;
    [unfold _load_gcode_model | unfold _load_stl_model];
    unfold open_r; rewrite Hc; cbn; now rewrite path_filetype.
Qed.

(** X7.  Only the error class of the loader's own parser is wrapped: any
    other exception raised by [parse] reaches the caller of [read] as it
    is. *)
Theorem read_passes_other_exceptions
        (fs : FS) (self : ModelFile) (cb : option Callback)
        (c : string) (e : exn) :
  open_r fs (Storage.path self) = Ok c ->
  (fst (filetype self) = Ok "gcode"
   /\ (forall msg, e <> GcodeParserError msg)
   /\ exists p, GcodeParser_load GcodeParser_new c = Ok p
                /\ GcodeParser_parse p cb = Raise e)
  \/ (fst (filetype self) = Ok "stl"
      /\ (forall msg, e <> StlParseError msg)
      /\ exists p, StlParser_load (StlParser_new c) c = Ok p
                   /\ StlParser_parse p cb = Raise e) ->
  fst (read fs self cb) = Raise e.
Proof.
  intros Ho H. rewrite ReadFacts.read_unfold.
  rewrite <- (path_filetype self) in Ho.
  destruct H as [[Hf [He [p [Hl Hp]]]] | [Hf [He [p [Hl Hp]]]]];
    rewrite Hf; cbn;
    [unfold _load_gcode_model | unfold _load_stl_model];
    rewrite Ho; cbn [bind]; rewrite Hl; cbn [bind]; rewrite Hp;
    destruct e; try reflexivity; now contradiction (He msg).
Qed.

End Read.

Lemma read_unknown_override_witness :
  @read Inputs.strict_parsers Inputs.gcode_fs (init "job.gcode" (Some "obj"))
        None
  = (Raise (KeyError "obj"), init "job.gcode" (Some "obj")).
Proof.
  apply (@read_unknown_override Inputs.strict_parsers); discriminate.
Defined.

Lemma read_returns_model_and_data_witness :
  fst (@read Inputs.strict_parsers MoreInputs.empty_file_fs
             (init "empty.gcode" None) None)
  = Ok (@LoadedGcode Inputs.strict_parsers tt []).
Proof.
  exact (proj1 (@read_returns_model_and_data Inputs.strict_parsers
                  MoreInputs.empty_file_fs (init "empty.gcode" None) None
                  "" eq_refl)
               "" [] eq_refl eq_refl eq_refl).
Defined.

Lemma read_missing_file_witness :
  fst (@read Inputs.strict_parsers Inputs.empty_fs (init "part.stl" None)
             None)
  = Raise (OSError "part.stl").
Proof.
  apply (@read_missing_file Inputs.strict_parsers); [reflexivity|].
  right. reflexivity.
Defined.

Lemma read_passes_other_exceptions_witness :
  fst (@read MoreInputs.clumsy_parsers Inputs.gcode_fs
             (init "job.gcode" None) None)
  = Raise ValueError.
Proof.
  apply (@read_passes_other_exceptions MoreInputs.clumsy_parsers
           Inputs.gcode_fs (init "job.gcode" None) None "G1 X9");
    [reflexivity|].
  left. split; [reflexivity|]. split; [discriminate|].
  exists "G1 X9". split; reflexivity.
Defined.

Section Write.
Context {F : Type} {fmt : PyFormat F}.

Lemma getitem_nat {A : Type} (l : list A) (k : nat) :
  getitem l (Z.of_nat k)
  = match nth_error l k with
    | Some x => Ok x
    | None => Raise IndexError
    end.
Proof.
  destruct (nth_error l k) as [x|] eqn:E.
  - now apply getitem_nth_error.
  - apply getitem_beyond. now apply nth_error_None.
Qed.

Lemma comprehension_ext {A B : Type} (f g : A -> result B) (l : list A) :
  (forall a, In a l -> f a = g a) -> comprehension f l = comprehension g l.
Proof.
  induction l as [|a l IH]; intros H; [reflexivity|].
  cbn [comprehension]. rewrite (H a (or_introl eq_refl)).
  rewrite IH by (intros b Hb; apply H; now right). reflexivity.
Qed.

Lemma comprehension_inv {A B : Type} (f : A -> result B) (l : list A)
      (bs : list B) :
  comprehension f l = Ok bs ->
  List.length bs = List.length l
  /\ forall k a, nth_error l k = Some a ->
                 exists b, nth_error bs k = Some b /\ f a = Ok b.
Proof.
  revert bs. induction l as [|a l IH]; intros bs H; cbn in H.
  - injection H as <-. split; [reflexivity|].
    intros [|k] a Hk; discriminate.
  - destruct (f a) as [b|e] eqn:Fa; cbn in H; [|discriminate].
    destruct (comprehension f l) as [bs'|e] eqn:C; cbn in H; [|discriminate].
    injection H as <-. destruct (IH bs' eq_refl) as [Hl Hn].
    split; [cbn; now rewrite Hl|].
    intros [|k] x Hk; cbn in *.
    + injection Hk as <-. eauto.
    + now apply Hn.
Qed.

(** X8.  When the filetype is not "stl" (or cannot be resolved), or the
    file cannot be opened for writing, [write_stl] raises and leaves the
    file system exactly as it was; a resolved type other than "stl" fails
    the assertion. *)
Theorem write_stl_fails_before_writing
        (fs : FS) (self : ModelFile) (m : Model.t F) :
  fst (filetype self) <> Ok "stl"
  \/ writable fs (Storage.path self) = false ->
  exists e,
    write_stl fs self m = (Raise e, fs, snd (filetype self))
    /\ (forall t, fst (filetype self) = Ok t -> t <> "stl" ->
                  e = AssertionError)
    /\ (fst (filetype self) = Ok "stl" -> e = OSError (Storage.path self)).
Proof.
  intros H. unfold write_stl. pose proof (path_filetype self) as Hp.
  destruct (filetype self) as [[t|e] self']; cbn [fst snd] in *.
  - destruct (String.eqb t "stl") eqn:E; cbn [negb].
    + apply String.eqb_eq in E. subst t.
      destruct H as [H | H]; [congruence|].
      rewrite Hp. unfold open_w. rewrite H.
      eexists. split; [reflexivity|]. split; [congruence | reflexivity].
    + exists AssertionError. split; [reflexivity|].
      split; [reflexivity|]. intros [= ->]. discriminate.
  - exists e. split; [reflexivity|]. split; discriminate.
Qed.

(** X9.  When the comprehension raises, the file has been opened and
    [close] is not reached: the file at the path is empty when the
    exception reaches the caller, whatever it held before, the line
    [solid] not having left the buffer of the file object. *)
Theorem write_stl_failure_truncates
        (fs : FS) (self : ModelFile) (m : Model.t F) (e : exn) :
  fst (filetype self) = Ok "stl" ->
  writable fs (Storage.path self) = true ->
  facets (Model.vertices m) (Model.normals m) = Raise e ->
  write_stl fs self m
  = (Raise e, put fs (Storage.path self) "", snd (filetype self))
  /\ content (snd (fst (write_stl fs self m))) (Storage.path self)
     = Some "".
Proof.
  intros Hf Hw Hb. unfold write_stl. pose proof (path_filetype self) as Hp.
  destruct (filetype self) as [ft self']. cbn [fst snd] in *. subst ft.
  cbn [String.eqb Ascii.eqb Bool.eqb negb]. rewrite Hp.
  unfold open_w. rewrite Hw, Hb. cbn [fst snd]. split; [reflexivity|].
  apply content_put.
Qed.


(** X11.  The comprehension of [write_stl] makes one block for every
    started group of three vertices: [(len(vertices) + 2) // 3] blocks, the
    last one with the one or two vertices left over when the count is no
    multiple of 3; block [k] holds the vertices [3k .. 3k+2] that exist and
    the normal [normals[3k]]. *)
Theorem facets_blocks
        (vertices normals : list (vec3 F)) (blocks : list string) :
  facets vertices normals = Ok blocks ->
  List.length blocks = ((List.length vertices + 2) / 3)%nat
  /\ forall k, (k < List.length blocks)%nat ->
               exists n,
                 nth_error normals (3 * k) = Some n
                 /\ nth_error blocks k
                    = Some (_format_facet (firstn 3 (skipn (3 * k) vertices))
                                          n).
Proof.
  unfold facets, len. rewrite range_3. intros H.
  apply comprehension_inv in H. destruct H as [Hl Hn].
  rewrite length_map, length_seq in Hl. split; [exact Hl|].
  intros k Hk. rewrite Hl in Hk.
  destruct (Hn k (3 * Z.of_nat k)) as [b [Hb Hf]].
  { rewrite nth_error_map, nth_error_seq.
    destruct (Nat.ltb k ((List.length vertices + 2) / 3)) eqn:E.
    - reflexivity.
    - apply Nat.ltb_ge in E. lia. }
  replace (3 * Z.of_nat k) with (Z.of_nat (3 * k)) in Hf by lia.
  rewrite getitem_nat in Hf.
  destruct (nth_error normals (3 * k)) as [n|]; [|discriminate].
  cbn [bind] in Hf. exists n. split; [reflexivity|].
  rewrite Hb. injection Hf as <-. unfold slice. rewrite Nat2Z.id.
  change (k + (k + (k + 0)))%nat with (3 * k)%nat.
  replace (Z.to_nat (Z.of_nat (3 * k) + 3 - Z.of_nat (3 * k))) with 3%nat
    by lia.
  reflexivity.
Qed.

(** X12.  [write_stl] reads nothing of the model but its vertices and the
    normals at the indices 0, 3, 6, ...: two models with the same vertices
    whose normals agree at these indices are written alike, whatever their
    other normals, offsets, scaling factor, rotation and flags. *)
Theorem write_stl_reads_every_third_normal
        (fs : FS) (self : ModelFile) (m1 m2 : Model.t F) :
  Model.vertices m1 = Model.vertices m2 ->
  (forall k, nth_error (Model.normals m1) (3 * k)
             = nth_error (Model.normals m2) (3 * k)) ->
  write_stl fs self m1 = write_stl fs self m2.
Proof.
  intros Hv Hn.
  assert (facets (Model.vertices m1) (Model.normals m1)
          = facets (Model.vertices m2) (Model.normals m2)) as Hf.
  { rewrite <- Hv. unfold facets, len. apply comprehension_ext.
    intros i Hi. rewrite range_3 in Hi. apply in_map_iff in Hi.
    destruct Hi as [k [<- _]].
    replace (3 * Z.of_nat k) with (Z.of_nat (3 * k)) by lia.
    now rewrite !getitem_nat, Hn. }
  unfold write_stl. now rewrite Hf.
Qed.

(** X13.  A mesh without vertices is written as the three lines [solid],
    the empty line and [endsolid], whatever its normals. *)
Theorem write_stl_empty_mesh
        (fs : FS) (self : ModelFile) (m : Model.t F) :
  Model.vertices m = [] ->
  fst (filetype self) = Ok "stl" ->
  writable fs (Storage.path self) = true ->
  fst (fst (write_stl fs self m)) = Ok tt
  /\ content (snd (fst (write_stl fs self m))) (Storage.path self)
     = Some (lines ["solid"; ""; "endsolid"]).
Proof.
  intros Hv Hf Hw.
  assert (facets (Model.vertices m) (Model.normals m) = Ok []) as Hb
      by (now rewrite Hv).
  destruct (write_stl_ok fs self m [] Hf Hw Hb) as [fs' [Hr Hc]].
  rewrite Hr. cbn [fst snd]. split; [reflexivity|]. exact Hc.
Qed.

End Write.

Lemma write_stl_fails_before_writing_witness :
  write_stl Inputs.empty_fs (init "job.gcode" None) Inputs.test_mesh
  = (Raise AssertionError, Inputs.empty_fs,
     snd (filetype (init "job.gcode" None)))
  /\ write_stl MoreInputs.read_only_fs (init "part.stl" None)
               Inputs.test_mesh
     = (Raise (OSError "part.stl"), MoreInputs.read_only_fs,
        snd (filetype (init "part.stl" None))).
Proof.
  split.
  - destruct (@write_stl_fails_before_writing float _ Inputs.empty_fs
                (init "job.gcode" None) Inputs.test_mesh)
      as [e [H [Ha _]]].
    + left. discriminate.
    + rewrite H. now rewrite (Ha "gcode" eq_refl ltac:(discriminate)).
  - destruct (@write_stl_fails_before_writing float _
                MoreInputs.read_only_fs (init "part.stl" None)
                Inputs.test_mesh)
      as [e [H [_ Ho]]].
    + right. reflexivity.
    + rewrite H. now rewrite (Ho eq_refl).
Defined.

Lemma write_stl_failure_truncates_witness :
  content (put Inputs.empty_fs "a.stl" "solid") "a.stl" = Some "solid"
  /\ fst (fst (write_stl (put Inputs.empty_fs "a.stl" "solid")
                         (init "a.stl" None)
                         (Inputs.mesh Inputs.two_facets
                                      Inputs.per_facet_normals)))
     = Raise IndexError
  /\ content (snd (fst (write_stl (put Inputs.empty_fs "a.stl" "solid")
                                  (init "a.stl" None)
                                  (Inputs.mesh Inputs.two_facets
                                               Inputs.per_facet_normals))))
             "a.stl"
     = Some "".
Proof.
  split; [reflexivity|].
  destruct (@write_stl_failure_truncates float _
              (put Inputs.empty_fs "a.stl" "solid") (init "a.stl" None)
              (Inputs.mesh Inputs.two_facets Inputs.per_facet_normals)
              IndexError eq_refl eq_refl eq_refl) as [H1 H2].
  split; [now rewrite H1 | exact H2].
Defined.

Lemma facets_blocks_witness :
  exists blocks,
    facets MoreInputs.four_vertices Inputs.per_vertex_normals = Ok blocks
    /\ List.length blocks = 2%nat
    /\ nth_error blocks 1
       = Some (_format_facet [(2, 2, 2)%float] (0, 0, -1)%float).
Proof.
  destruct (facets MoreInputs.four_vertices Inputs.per_vertex_normals)
    as [blocks|e] eqn:E; [|discriminate E].
  exists blocks. split; [reflexivity|].
  destruct (@facets_blocks float _ MoreInputs.four_vertices
              Inputs.per_vertex_normals blocks E) as [Hl Hk].
  split; [exact Hl|].
  destruct (Hk 1%nat ltac:(rewrite Hl; cbn; lia)) as [n [Hn Hb]].
  cbn in Hn. injection Hn as <-. exact Hb.
Defined.

Lemma write_stl_reads_every_third_normal_witness :
  write_stl Inputs.empty_fs (init "part.stl" None)
            (Inputs.mesh Inputs.test_vertices
                         [(0, 0, 1); (9, 9, 9); (7, 7, 7)]%float)
  = write_stl Inputs.empty_fs (init "part.stl" None)
              (Model.mk Inputs.test_vertices [(0, 0, 1)]%float
                        5%float 5%float 5%float 3%float
                        (90, 0, 0)%float true true 2 true).
Proof.
  apply (@write_stl_reads_every_third_normal float _); [reflexivity|].
  intros [|k]; [reflexivity|].
  replace (3 * S k)%nat with (S (S (S (3 * k)))) by lia.
  generalize (3 * k)%nat. intros n. now destruct n.
Defined.

Lemma write_stl_empty_mesh_witness :
  content (snd (fst (write_stl Inputs.empty_fs (init "part.stl" None)
                               (Inputs.mesh [] Inputs.test_normals))))
          "part.stl"
  = Some (lines ["solid"; ""; "endsolid"]).
Proof.
  exact (proj2 (@write_stl_empty_mesh float _ Inputs.empty_fs
                  (init "part.stl" None) (Inputs.mesh [] Inputs.test_normals)
                  eq_refl eq_refl eq_refl)).
Defined.

End StorageExtras.

(** * Further properties of the scene *)

Module SceneExtras.
Import Scene SceneFacts ModelCalls.

Section Extras.
Context {F : Type} {num : PyNum F} {mth : PyMath F} {fmt : PyFormat F}
        {vm : ViewMethods F} {mm : ModelMethods F}.

(** X14.  When [display] returns, it has called [display] on every entry
    of [actors] once, in the order of the list, all with the same
    arguments: with the orthographic projection on, the negated elevation
    of the current view; otherwise the eye height, which was computed
    before the first actor was displayed.  The two flags are the scene's
    [mode_ortho] and [mode_2d]. *)
Theorem display_visits_actors_in_order
        (w : world F) (width height : F)
        (calls : list (ref * display_args F)) :
  fst (display width height w) = Ok calls ->
  map fst calls = actors (scene w)
  /\ exists args,
       map snd calls = repeat args (List.length (actors (scene w)))
       /\ match args with
          | with_elevation elevation ortho flat =>
              mode_ortho (scene w) = true
              /\ elevation = fneg (View.elevation (current (scene w)))
              /\ ortho = true
              /\ flat = mode_2d (scene w)
          | with_eye_height height ortho flat =>
              mode_ortho (scene w) = false
              /\ eye_height (current (scene w)) = Ok height
              /\ ortho = false
              /\ flat = mode_2d (scene w)
          end.
Proof.
  assert (forall (args : display_args F) (l : list ref),
             map fst (map (fun a => (a, args)) l) = l
             /\ map snd (map (fun a => (a, args)) l)
                = repeat args (List.length l)) as Hmap.
  { intros args l. rewrite !map_map. cbn. rewrite map_id. split; [easy|].
    induction l as [|a l IH]; [reflexivity|]. cbn. now rewrite IH. }
  unfold display, bindM, get_scene, lift, ret. cbn.
  destruct (mode_ortho (scene w)) eqn:Ho.
  - cbn. intros [= <-]. destruct (Hmap
      (with_elevation (fneg (View.elevation (current (scene w)))) true
                      (mode_2d (scene w))) (actors (scene w))) as [H1 H2].
    split; [exact H1|]. eexists. split; [exact H2|]. repeat split.
  - destruct (eye_height (current (scene w))) as [h|e] eqn:E; cbn;
      [|discriminate].
    intros [= <-]. destruct (Hmap
      (with_eye_height h false (mode_2d (scene w))) (actors (scene w)))
      as [H1 H2].
    split; [exact H1|]. eexists. split; [exact H2|]. repeat split.
Qed.

(** X15.  The [mode_ortho] setter acts on the current view only, and only
    when that view supports the toggle: then the getter returns the value
    set; otherwise the setter changes nothing and the getter reads False,
    whatever the view's [ortho] attribute. *)
Theorem mode_ortho_setter (w : world F) (value : bool) :
  (View.supports_ortho (current (scene w)) = true ->
   let w' := snd (set_mode_ortho value w) in
   mode_ortho (scene w') = value
   /\ current (scene w') = View.set_ortho value (current (scene w))
   /\ current_view (scene w') = current_view (scene w)
   /\ (current_view (scene w) = view_perspective_ref ->
       view_ortho (scene w') = view_ortho (scene w))
   /\ (current_view (scene w) = view_ortho_ref ->
       view_perspective (scene w') = view_perspective (scene w)))
  /\ (View.supports_ortho (current (scene w)) = false ->
      set_mode_ortho value w = (Ok tt, w)
      /\ mode_ortho (scene w) = false).
Proof.
  destruct w as [h [md ac cx cy vo vp cv ini rd]].
  unfold set_mode_ortho, mode_ortho, bindM, get_scene, modify, set_scene,
    ret, update_current, current.
  destruct cv; cbn; (split; intros H; rewrite H; cbn;
                     [rewrite ?H; repeat split; congruence | now split]).
Qed.

(** X16.  [rotate_view] is ignored while the 2D view is current.
    Otherwise it sets the two angles of the current view, leaves the 2D
    view alone and asks for a redraw; the angles are absolute, so a call
    overrides the call before it. *)
Theorem rotate_view_absolute (w : world F) (azimuth elevation : F) :
  (mode_2d (scene w) = true ->
   rotate_view azimuth elevation w = (Ok tt, w))
  /\ (mode_2d (scene w) = false ->
      let w' := snd (rotate_view azimuth elevation w) in
      View.azimuth (current (scene w')) = azimuth
      /\ View.elevation (current (scene w')) = elevation
      /\ view_ortho (scene w') = view_ortho (scene w)
      /\ redraw (scene w') = true
      /\ forall a e,
          snd (rotate_view azimuth elevation (snd (rotate_view a e w)))
          = w').
Proof.
  destruct w as [h [md ac cx cy vo vp cv ini rd]].
  unfold rotate_view, mode_2d, bindM, get_scene, modify, set_scene, ret,
    invalidate, update_current, current.
  destruct cv; cbn; split; intros H; try discriminate; repeat split.
Qed.

(** X17.  The view methods being taken to return, [button_motion] records
    the cursor position and asks for a redraw whichever buttons are down,
    also when none is; it changes neither the model, the actors, the
    objects nor which view is current. *)
Theorem button_motion_tracks_cursor
        (w : world F) (x y : F) (left middle right : bool) :
  let w' := snd (button_motion x y left middle right w) in
  cursor_x (scene w') = x
  /\ cursor_y (scene w') = y
  /\ redraw (scene w') = true
  /\ heap w' = heap w
  /\ model (scene w') = model (scene w)
  /\ actors (scene w') = actors (scene w)
  /\ current_view (scene w') = current_view (scene w).
Proof.
  destruct w as [h [md ac cx cy vo vp cv ini rd]].
  unfold button_motion, bindM, get_scene, modify, set_scene, ret,
    invalidate, update_current, current.
  destruct left; [|destruct middle; [|destruct right]];
    destruct cv; cbn; try destruct (has_offset _); cbn; repeat split.
Qed.

(** X18.  The buttons are tried in the order left, middle, right and only
    the first one that is down counts.  With the left button down the
    others are ignored; with the middle button down the right one is
    ignored, so on a view without [offset] nothing moves even when the
    right button is down too. *)
Theorem button_motion_priority (w : world F) (x y : F) (middle right : bool) :
  button_motion x y true middle right w = button_motion x y true false false w
  /\ button_motion x y false true right w
     = button_motion x y false true false w
  /\ (has_offset (current (scene w)) = false ->
      view_ortho (scene (snd (button_motion x y false true right w)))
      = view_ortho (scene w)
      /\ view_perspective (scene (snd (button_motion x y false true right w)))
         = view_perspective (scene w)).
Proof.
  split; [reflexivity|]. split; [reflexivity|].
  intros H. unfold button_motion, bindM, get_scene, modify, set_scene, ret,
    invalidate. cbn. rewrite H. cbn. now split.
Qed.

(** X19.  [wheel_scroll] uses nothing of its argument but whether it is
    negative: two directions on the same side zoom alike, and zero zooms
    like a positive direction. *)
Theorem wheel_scroll_sign (w : world F) (d1 d2 : F) :
  fltb d1 (of_Z 0) = fltb d2 (of_Z 0) ->
  wheel_scroll d1 w = wheel_scroll d2 w.
Proof. intros H. unfold wheel_scroll. now rewrite H. Qed.

Lemma step_in_3d_keeps_2d_view (o : op) (w : world F) :
  current_view (scene w) = view_perspective_ref ->
  o <> Reset_view true ->
  view_ortho (scene (step o w)) = view_ortho (scene w).
Proof.
  intros Hc Ho.
  destruct o;
    try (unfold step, run; cbn [snd]; solve [ crunch; auto; congruence ]).
  - unfold step, run, init, bindM, init_actors, get_scene, modify, set_scene.
    cbn. pose proof (init_actors_loop_scene (actors (scene w)) w) as H.
    destruct (init_actors_loop (actors (scene w)) w) as [[[]|e] w'];
      cbn in *; rewrite ?H; auto.
  - unfold step, run, init_actors, bindM, get_scene. cbn.
    now rewrite init_actors_loop_scene.
Qed.

(** X20.  A call of a scene method only ever changes the view that is
    current: apart from [reset_view(True)], no call changes the 2D view
    while the 3D view is current, nor the 3D view while the 2D view is
    current; and no call but the [mode_2d] setter changes which view is
    current. *)
Theorem calls_change_current_view_only (o : op) (w : world F) :
  o <> Reset_view true ->
  (current_view (scene w) = view_perspective_ref ->
   view_ortho (scene (step o w)) = view_ortho (scene w))
  /\ (current_view (scene w) = view_ortho_ref ->
      view_perspective (scene (step o w)) = view_perspective (scene w))
  /\ ((forall value, o <> Set_mode_2d value) ->
      current_view (scene (step o w)) = current_view (scene w)).
Proof.
  intros Ho. split; [|split].
  - intros Hc. now apply step_in_3d_keeps_2d_view.
  - intros Hc. now apply step_in_2d_keeps_3d_view.
  - apply step_current_view.
Qed.

(** X21.  No call of a scene method sets the model back to [None], none
    but [clear()] removes an entry from [actors], and none but [add_model]
    and [add_supporting_actor] adds one. *)
Theorem model_and_actors_growth (o : op) (w : world F) :
  (forall r, model (scene w) = Some r ->
             exists r', model (scene (step o w)) = Some r')
  /\ (o <> Clear ->
      forall a, In a (actors (scene w)) -> In a (actors (scene (step o w))))
  /\ (forall a, In a (actors (scene (step o w))) ->
                In a (actors (scene w))
                \/ o = Add_model a \/ o = Add_supporting_actor a).
Proof.
  pose proof (step_model_actors o w) as H. cbn zeta in H.
  destruct o; destruct H as [Hm Ha]; rewrite Hm, Ha;
    (split; [eauto | split; [intros Hc a Hin; try congruence;
                             try (apply in_or_app; now left); easy
                            | intros a Hin; auto]]).
  - apply in_app_or in Hin. destruct Hin as [Hin | [<- | []]]; auto.
  - apply in_app_or in Hin. destruct Hin as [Hin | [<- | []]]; auto.
  - destruct Hin.
Qed.

(** X22.  While no model is set, every method that starts by reading an
    attribute of [self.model] that [None] does not have raises
    AttributeError and changes nothing.  [change_model_dimension] with the
    name of an attribute [None] has (such as "__doc__") gets past
    [getattr], raises TypeError at the division, and changes nothing
    either. *)
Theorem no_model_raises (o : op) (w : world F) :
  model (scene w) = None ->
  (starts_at_model o = true ->
   exists name, run o w = (Raise (AttributeError name), w))
  /\ (forall dimension value,
         PyStr.mem dimension NoneType_dir = true ->
         change_model_dimension dimension value w = (Raise TypeError, w)).
Proof.
  intros Hm. split.
  - intros Ho. destruct o; try discriminate Ho;
      try (unfold run; unfold_methods; unfold_methods; cbn; rewrite Hm; cbn;
           solve [eauto]).
    unfold starts_at_model in Ho. apply Bool.negb_true_iff in Ho.
    unfold run, change_model_dimension, the_model, bindM, get_scene, raise.
    cbn -[PyStr.mem]. rewrite Hm, Ho. eauto.
  - intros dimension value Hd.
    unfold change_model_dimension, the_model, bindM, get_scene, raise.
    cbn -[PyStr.mem]. now rewrite Hm, Hd.
Qed.

Lemma init_actors_loop_initialized (l : list ref) (w : world F) :
  (forall a, In a l -> Model.initialized (heap w a) = true) ->
  init_actors_loop l w = (Ok tt, w).
Proof.
  induction l as [|a l IH]; intros H; [reflexivity|].
  cbn [init_actors_loop]. unfold bindM, load, ret.
  rewrite (H a (or_introl eq_refl)). cbn.
  apply IH. intros b Hb. apply H. now right.
Qed.

(** X23.  [init_actors] calls [init()] on no actor that is already
    initialised: when all are, it changes nothing, and [init] then only
    sets the scene's own flag. *)
Theorem init_skips_initialized_actors (w : world F) :
  (forall a, In a (actors (scene w)) ->
             Model.initialized (heap w a) = true) ->
  init_actors w = (Ok tt, w)
  /\ init w = (Ok tt, mk_world (heap w) (with_initialized true (scene w))).
Proof.
  intros H. unfold init, init_actors, bindM, get_scene, modify, set_scene.
  cbn. rewrite (init_actors_loop_initialized _ _ H). now split.
Qed.

(** X24.  [init] sets the scene's [initialized] flag exactly when no
    actor's [init()] raised; in either case it changes nothing else of the
    scene. *)
Theorem init_sets_flag_on_success (w : world F) :
  match fst (init w) with
  | Ok _ => scene (snd (init w)) = with_initialized true (scene w)
  | Raise _ => scene (snd (init w)) = scene w
  end.
Proof.
  unfold init, init_actors, bindM, get_scene, modify, set_scene. cbn.
  pose proof (init_actors_loop_scene (actors (scene w)) w) as H.
  destruct (init_actors_loop (actors (scene w)) w) as [[[]|e] w'];
    cbn in *; now rewrite H.
Qed.

(** X25.  A model method that raises leaves the scene and its objects as
    they were, and [init()] is not called: this holds for [scale] in
    [scale_model], for [translate] in [center_model] and for [rotate_abs]
    in [rotate_model]; an axis name the axis map rejects makes
    [rotate_model] raise before the model is looked at. *)
Theorem failed_manipulation_changes_nothing
        (w : world F) (r : ref) (e : exn) :
  model (scene w) = Some r ->
  (forall factor,
      model_scale factor (heap w r) = Raise e ->
      scale_model factor w = (Raise e, w))
  /\ (forall angle name axis,
         model_letter_axis_map name = Ok axis ->
         model_rotate_abs angle axis (heap w r) = Raise e ->
         rotate_model angle name w = (Raise e, w))
  /\ (forall l0 l1 l2 u0 u1 u2,
         model_bounding_box (heap w r) = ((l0, l1, l2), (u0, u1, u2)) ->
         model_translate (fdiv (fneg (fadd u0 l0)) (of_Z 2))
                         (fdiv (fneg (fadd u1 l1)) (of_Z 2))
                         (fneg l2) (heap w r) = Raise e ->
         center_model w = (Raise e, w))
  /\ (forall angle name w0,
         model_letter_axis_map name = Raise e ->
         rotate_model angle name w0 = (Raise e, w0)).
Proof.
  intros Hm. repeat apply conj.
  - intros f H. unfold scale_model, the_model, bindM, get_scene, load, lift,
      ret. cbn. rewrite Hm. cbn. now rewrite H.
  - intros a n ax Hn H. unfold rotate_model, the_model, bindM, get_scene,
      load, lift, ret. cbn. rewrite Hn, Hm. cbn. now rewrite H.
  - intros l0 l1 l2 u0 u1 u2 Hb H. unfold center_model, the_model, bindM,
      get_scene, load, lift, ret. cbn. rewrite Hm. cbn. rewrite Hb.
    cbn. now rewrite H.
  - intros a n w0 H. unfold rotate_model, bindM, lift. now rewrite H.
Qed.

(** X26.  [view_model_center] returns and changes the three offsets of the
    model and nothing else: not its vertices, normals, scaling factor or
    [modified] flag, no other object, nothing of the scene. *)
Theorem view_model_center_sets_offsets_only (w : world F) (r : ref) :
  model (scene w) = Some r ->
  let w' := snd (view_model_center w) in
  let box := model_bounding_box (heap w r) in
  fst (view_model_center w) = Ok tt
  /\ scene w' = scene w
  /\ (forall q, q <> r -> heap w' q = heap w q)
  /\ Model.vertices (heap w' r) = Model.vertices (heap w r)
  /\ Model.normals (heap w' r) = Model.normals (heap w r)
  /\ Model.scaling_factor (heap w' r) = Model.scaling_factor (heap w r)
  /\ Model.rotation (heap w' r) = Model.rotation (heap w r)
  /\ Model.modified (heap w' r) = Model.modified (heap w r)
  /\ Model.offset_z (heap w' r) = fneg (snd (fst box)).
Proof.
  intros Hm. unfold view_model_center, the_model, bindM, get_scene, load,
    store, ret. cbn. rewrite Hm. cbn.
  destruct (model_bounding_box (heap w r)) as [[[l0 l1] l2] [[u0 u1] u2]].
  cbn. rewrite Nat.eqb_refl. repeat split.
  intros q Hq. apply Nat.eqb_neq in Hq. now rewrite Hq.
Qed.

(** X27.  [export_to_file] without a model raises before anything is
    written: the file system and the scene stay as they were, and for an
    "stl" file the error is the AttributeError of [None.vertices]. *)
Theorem export_without_model
        (fs : FileSystem.FS) (mf : Storage.ModelFile) (w : world F) :
  model (scene w) = None ->
  exists e,
    export_to_file fs mf w = (Raise e, fs, snd (Storage.filetype mf), w)
    /\ (fst (Storage.filetype mf) = Ok "stl" -> e = AttributeError "vertices").
Proof.
  intros Hm. unfold export_to_file. rewrite Hm.
  destruct (Storage.filetype mf) as [[t|e] mf']; cbn [fst snd].
  - destruct (String.eqb t "stl") eqn:E; cbn [negb].
    + eexists. split; [reflexivity|]. reflexivity.
    + eexists. split; [reflexivity|]. intros [= ->]. discriminate.
  - eexists. split; [reflexivity|]. discriminate.
Qed.

(** X28.  A successful [export_to_file] has written the model as it was,
    and changes nothing but the [modified] flag of the model: the scene,
    the other objects and the other attributes of the model stay as they
    were. *)
Theorem export_clears_flag_only
        (fs fs' : FileSystem.FS) (mf mf' : Storage.ModelFile)
        (w w' : world F) (r : ref) :
  model (scene w) = Some r ->
  export_to_file fs mf w = (Ok tt, fs', mf', w') ->
  Storage.write_stl fs mf (heap w r) = (Ok tt, fs', mf')
  /\ scene w' = scene w
  /\ heap w' r = Model.set_modified false (heap w r)
  /\ (forall q, q <> r -> heap w' q = heap w q).
Proof.
  intros Hm H. unfold export_to_file in H. rewrite Hm in H.
  destruct (Storage.write_stl fs mf (heap w r)) as [[[[]|e] fs1] mf1];
    [|discriminate].
  injection H as <- <- <-. cbn. rewrite Nat.eqb_refl. repeat split.
  intros q Hq. apply Nat.eqb_neq in Hq. now rewrite Hq.
Qed.

End Extras.

End SceneExtras.

(** ** The eye height over the reals *)

Module EyeHeight.
Import Scene SceneFacts RealFacts.
Local Open Scope R_scope.

(** The point [(y, z)] in polar coordinates, to the right of the origin. *)
Lemma polar_right (y z : R) :
  0 < y ->
  sqrt (y * y + z * z) * cos (atan (z / y)) = y
  /\ sqrt (y * y + z * z) * sin (atan (z / y)) = z.
Proof.
  intros Hy. split; [|now apply sqrt_sin_atan].
  pose proof (atan_bound (z / y)) as [Hlo Hhi].
  pose proof (cos_gt_0 (atan (z / y)) ltac:(lra) ltac:(lra)) as Hc.
  pose proof (tan_atan (z / y)) as Ht. unfold tan in Ht.
  set (t := atan (z / y)) in *.
  assert (sin t = z / y * cos t) as Hs by (rewrite <- Ht; field; lra).
  pose proof (sin2_cos2 t) as H1. unfold Rsqr in H1. rewrite Hs in H1.
  assert (cos t * cos t * (y * y + z * z) = y * y) as H2.
  { assert (z / y * cos t * (z / y * cos t) * (y * y)
            = z * z * (cos t * cos t)) as E by (field; lra).
    nra. }
  assert (0 <= y * y + z * z) as Hpos by nra.
  apply Rsqr_inj.
  - apply Rmult_le_pos; [apply sqrt_pos | lra].
  - lra.
  - unfold Rsqr.
    replace (sqrt (y * y + z * z) * cos t * (sqrt (y * y + z * z) * cos t))
      with (sqrt (y * y + z * z) * sqrt (y * y + z * z) * (cos t * cos t))
      by ring.
    rewrite sqrt_sqrt by assumption. lra.
Qed.

(** [math.atan2(z, y)] is the angle of the point [(y, z)]. *)
Lemma polar_atan2 (y z : R) :
  sqrt (y * y + z * z) * cos (RealNum.atan2 z y) = y
  /\ sqrt (y * y + z * z) * sin (RealNum.atan2 z y) = z.
Proof.
  unfold RealNum.atan2.
  destruct (Rlt_dec 0 y) as [Hy|Hy]; [now apply polar_right|].
  destruct (Rlt_dec y 0) as [Hy'|Hy'].
  - destruct (polar_right (- y) (- z) ltac:(lra)) as [Hc Hs].
    replace (- y * - y + - z * - z) with (y * y + z * z) in * by ring.
    replace (- z / - y) with (z / y) in * by (field; lra).
    destruct (Rle_dec 0 z).
    + rewrite neg_cos, neg_sin. split; nra.
    + unfold Rminus. rewrite cos_plus, sin_plus, cos_neg, sin_neg.
      rewrite cos_PI, sin_PI. split; nra.
  - assert (y = 0) as -> by lra.
    replace (0 * 0 + z * z) with (z * z) by ring.
    destruct (Rlt_dec 0 z) as [Hz|Hz].
    + rewrite sqrt_square by lra. rewrite cos_PI2, sin_PI2. split; ring.
    + destruct (Rlt_dec z 0) as [Hz'|Hz'].
      * replace (z * z) with (- z * - z) by ring.
        rewrite sqrt_square by lra.
        rewrite cos_neg, sin_neg, cos_PI2, sin_PI2. split; ring.
      * assert (z = 0) as -> by lra.
        rewrite Rmult_0_l, sqrt_0. split; ring.
Qed.

(** X29.  Over the reals, for a zoom factor other than zero, the eye
    height [display] computes is
    [-(z * cos E + (y / zoom_factor) * sin E)], where [E] is the elevation
    in radians: the height at which the line of sight, tilted by the
    elevation, passes the point [(y / zoom_factor, z)]. *)
Theorem eye_height_closed_form (v : View.t R) :
  View.zoom_factor v <> 0 ->
  eye_height v
  = Ok (- (View.z v * cos (View.elevation v * (PI / 180))
           + View.y v / View.zoom_factor v
             * sin (View.elevation v * (PI / 180)))).
Proof.
  intros Hz. unfold eye_height, truediv, math_sqrt.
  cbn [feqb fltb fdiv fadd fsub fmul fneg fsqrt of_Z real_num
       py_sq m_sin m_atan2 real_math bind].
  rewrite eqb_false by assumption. cbn [bind].
  set (y := View.y v / View.zoom_factor v).
  set (z := View.z v). set (e := View.elevation v).
  rewrite ltb_false by nra. cbn [bind]. f_equal.
  unfold math_degrees, math_radians.
  cbn [fmul fdiv of_Z pi real_num real_math].
  destruct (polar_atan2 y z) as [Hc Hs].
  set (a := RealNum.atan2 z y) in *.
  replace ((- (a * (180 / PI)) - e) * (PI / 180))
    with (- (a + e * (PI / 180))) by (field; apply PI_neq0).
  rewrite sin_neg, sin_plus.
  set (r := sqrt (y * y + z * z)) in *.
  replace (r * - (sin a * cos (e * (PI / 180)) + cos a * sin (e * (PI / 180))))
    with (- ((r * sin a) * cos (e * (PI / 180))
             + (r * cos a) * sin (e * (PI / 180)))) by ring.
  now rewrite Hc, Hs.
Qed.

Lemma eye_height_closed_form_witness :
  eye_height Inputs.camera
  = Ok (- (50 * cos (0 * (PI / 180)) + 100 / 1 * sin (0 * (PI / 180)))).
Proof.
  apply (eye_height_closed_form Inputs.camera). cbn. lra.
Defined.

End EyeHeight.

(** ** The further properties on concrete inputs *)

Module SceneExtrasOnInputs.
Import Scene SceneFacts SceneExtras RealFacts.

Local Existing Instance ModelSpec.methods.
Local Existing Instance MoreInputs.float_views.

Lemma mode_ortho_setter_witness :
  mode_ortho (scene (snd (set_mode_ortho true MoreInputs.bare_world))) = true
  /\ set_mode_ortho true MoreInputs.bare_world_2d
     = (Ok tt, MoreInputs.bare_world_2d)
  /\ mode_ortho (scene MoreInputs.bare_world_2d) = false.
Proof.
  split.
  - exact (proj1 (proj1 (@mode_ortho_setter float MoreInputs.bare_world true)
                        eq_refl)).
  - exact (proj2 (@mode_ortho_setter float MoreInputs.bare_world_2d true)
                 eq_refl).
Defined.

Lemma rotate_view_absolute_witness :
  rotate_view 30%float 60%float MoreInputs.bare_world_2d
  = (Ok tt, MoreInputs.bare_world_2d)
  /\ snd (rotate_view 30%float 60%float
                      (snd (rotate_view 10%float 20%float
                                        MoreInputs.bare_world)))
     = snd (rotate_view 30%float 60%float MoreInputs.bare_world).
Proof.
  split.
  - exact (proj1 (@rotate_view_absolute float MoreInputs.bare_world_2d
                    30%float 60%float) eq_refl).
  - exact (proj2 (proj2 (proj2 (proj2
             (proj2 (@rotate_view_absolute float MoreInputs.bare_world
                       30%float 60%float) eq_refl))))
             10%float 20%float).
Defined.

Lemma button_motion_priority_witness :
  view_ortho (scene (snd (button_motion 10%float 5%float false true true
                                        MoreInputs.bare_world_2d)))
  = view_ortho (scene MoreInputs.bare_world_2d).
Proof.
  exact (proj1 (proj2 (proj2 (@button_motion_priority float _ _
                                MoreInputs.bare_world_2d 10%float 5%float
                                true true))
                      eq_refl)).
Defined.

Lemma wheel_scroll_sign_witness :
  wheel_scroll 0%float MoreInputs.bare_world
  = wheel_scroll 7%float MoreInputs.bare_world
  /\ wheel_scroll (-1)%float MoreInputs.bare_world
     = wheel_scroll (-0.5)%float MoreInputs.bare_world.
Proof.
  split.
  - exact (@wheel_scroll_sign float _ _ MoreInputs.bare_world
             0%float 7%float eq_refl).
  - exact (@wheel_scroll_sign float _ _ MoreInputs.bare_world
             (-1)%float (-0.5)%float eq_refl).
Defined.

Lemma init_skips_initialized_actors_witness :
  init MoreInputs.ready_world
  = (Ok tt, mk_world (heap MoreInputs.ready_world)
                     (with_initialized true (scene MoreInputs.ready_world))).
Proof.
  apply (@init_skips_initialized_actors float _ MoreInputs.ready_world).
  intros a _. reflexivity.
Defined.

Lemma failed_manipulation_changes_nothing_witness :
  scale_model 0%float Inputs.float_world
  = (Raise GeometryError, Inputs.float_world)
  /\ rotate_model 90%float "w" Inputs.float_world
     = (Raise (KeyError "w"), Inputs.float_world).
Proof.
  split.
  - exact (proj1 (@failed_manipulation_changes_nothing float _ _
                    Inputs.float_world 0%nat GeometryError eq_refl)
                 0%float eq_refl).
  - exact (proj2 (proj2 (proj2
             (@failed_manipulation_changes_nothing float _ _
                Inputs.float_world 0%nat (KeyError "w") eq_refl)))
             90%float "w" Inputs.float_world eq_refl).
Defined.

Lemma view_model_center_sets_offsets_only_witness :
  let w' := snd (view_model_center Inputs.float_world) in
  Model.modified (heap w' 0%nat) = false
  /\ Model.vertices (heap w' 0%nat) = Inputs.two_facets
  /\ Model.offset_z (heap w' 0%nat) = (-0)%float.
Proof.
  cbn zeta.
  destruct (@view_model_center_sets_offsets_only float _ _
              Inputs.float_world 0%nat eq_refl)
    as [_ [_ [_ [Hv [_ [_ [_ [Hm Hz]]]]]]]].
  split; [exact Hm|]. split; [exact Hv | exact Hz].
Defined.

Lemma export_without_model_witness :
  export_to_file Inputs.empty_fs (Storage.init "part.stl" None)
                 MoreInputs.bare_world
  = (Raise (AttributeError "vertices"), Inputs.empty_fs,
     snd (Storage.filetype (Storage.init "part.stl" None)),
     MoreInputs.bare_world).
Proof.
  destruct (@export_without_model float _ Inputs.empty_fs
              (Storage.init "part.stl" None) MoreInputs.bare_world eq_refl)
    as [e [H He]].
  rewrite H. now rewrite (He eq_refl).
Defined.

Lemma export_clears_flag_only_witness :
  let x := export_to_file Inputs.empty_fs (Storage.init "part.stl" None)
                          Inputs.float_world in
  fst (fst (fst x)) = Ok tt
  /\ scene (snd x) = scene Inputs.float_world
  /\ heap (snd x) 0%nat
     = Model.set_modified false (heap Inputs.float_world 0%nat)
  /\ heap (snd x) 1%nat = heap Inputs.float_world 1%nat.
Proof.
  cbn zeta.
  destruct (export_to_file Inputs.empty_fs (Storage.init "part.stl" None)
                           Inputs.float_world)
    as [[[res fs'] mf'] w'] eqn:E.
  assert (res = Ok tt) as ->.
  { apply (f_equal (fun x => fst (fst (fst x)))) in E. cbn [fst] in E.
    rewrite <- E. reflexivity. }
  destruct (@export_clears_flag_only float _ _ _ _ _ Inputs.float_world _
              0%nat eq_refl E)
    as [_ [Hs [Hh Hq]]].
  cbn [fst snd]. split; [reflexivity|]. split; [exact Hs|].
  split; [exact Hh|]. apply Hq. discriminate.
Defined.

Local Open Scope R_scope.

Lemma calls_change_current_view_only_witness :
  view_ortho (scene (Inputs.real_step (Wheel_scroll 1)
                       (Inputs.world_of Inputs.fresh_scene)))
  = Inputs.flat_view
  /\ current_view (scene (Inputs.real_step (Reset_view false)
                            (Inputs.world_of Inputs.fresh_scene)))
     = view_perspective_ref.
Proof.
  split.
  - exact (proj1 (@calls_change_current_view_only R _ _ _
                    Inputs.additive_views ModelSpec.methods
                    (Wheel_scroll 1) (Inputs.world_of Inputs.fresh_scene)
                    ltac:(discriminate))
                 eq_refl).
  - exact (proj2 (proj2 (@calls_change_current_view_only R _ _ _
                           Inputs.additive_views ModelSpec.methods
                           (Reset_view false)
                           (Inputs.world_of Inputs.fresh_scene)
                           ltac:(discriminate)))
                 ltac:(discriminate)).
Defined.

Lemma no_model_raises_witness :
  (exists name,
      Inputs.real_run (Scale_model 2) (Inputs.world_of Inputs.fresh_scene)
      = (Raise (AttributeError name), Inputs.world_of Inputs.fresh_scene))
  /\ Inputs.real_run (Change_model_dimension "__doc__" 2)
                     (Inputs.world_of Inputs.fresh_scene)
     = (Raise TypeError, Inputs.world_of Inputs.fresh_scene)
  /\ exists name,
       Inputs.real_run (Change_model_dimension "width" 2)
                       (Inputs.world_of Inputs.fresh_scene)
       = (Raise (AttributeError name), Inputs.world_of Inputs.fresh_scene).
Proof.
  split; [|split].
  - exact (proj1 (@no_model_raises R _ _ _ Inputs.additive_views
                    ModelSpec.methods (Scale_model 2)
                    (Inputs.world_of Inputs.fresh_scene) eq_refl)
                 eq_refl).
  - exact (proj2 (@no_model_raises R _ _ _ Inputs.additive_views
                    ModelSpec.methods Clear
                    (Inputs.world_of Inputs.fresh_scene) eq_refl)
                 "__doc__" 2 eq_refl).
  - exact (proj1 (@no_model_raises R _ _ _ Inputs.additive_views
                    ModelSpec.methods (Change_model_dimension "width" 2)
                    (Inputs.world_of Inputs.fresh_scene) eq_refl)
                 eq_refl).
Defined.

(** The scene of section 8, with two actors, displayed. *)
Lemma display_two_actors :
  @display R _ _ 800 600 Inputs.two_actors
  = (Ok [(0%nat, with_eye_height (-50) false false);
         (1%nat, with_eye_height (-50) false false)],
     Inputs.two_actors).
Proof.
  unfold display, bindM, get_scene, lift, ret.
  change (scene Inputs.two_actors)
    with (with_actors [0%nat; 1%nat] Inputs.fresh_scene).
  change (mode_ortho (with_actors [0%nat; 1%nat] Inputs.fresh_scene))
    with false.
  change (current (with_actors [0%nat; 1%nat] Inputs.fresh_scene))
    with Inputs.camera.
  cbv iota beta. now rewrite eye_height_camera.
Qed.

Lemma display_visits_actors_in_order_witness :
  map fst [(0%nat, with_eye_height (-50) false false);
           (1%nat, with_eye_height (-50) false false)]
  = actors (scene Inputs.two_actors)
  /\ exists args,
       map snd [(0%nat, with_eye_height (-50) false false);
                (1%nat, with_eye_height (-50) false false)]
       = repeat args 2
       /\ match args with
          | with_elevation _ _ _ => False
          | with_eye_height height ortho flat =>
              eye_height Inputs.camera = Ok height
              /\ ortho = false /\ flat = false
          end.
Proof.
  destruct (@display_visits_actors_in_order R _ _ Inputs.two_actors 800 600
              [(0%nat, with_eye_height (-50) false false);
               (1%nat, with_eye_height (-50) false false)])
    as [H1 [args [H2 H3]]].
  - now rewrite display_two_actors.
  - split; [exact H1|]. exists args. split; [exact H2|].
    destruct args as [e o f | h o f].
    + destruct H3 as [H3 _]. discriminate H3.
    + destruct H3 as [_ [H4 [H5 H6]]]. split; [exact H4|]. split; assumption.
Defined.

End SceneExtrasOnInputs.

(** ** Resetting the views *)

Module ResetView.
Import Scene SceneFacts.

Section Reset.
Context {F : Type} {vm : ViewMethods F}.

(** X30.  [reset_view(True)] resets the two views whichever is current and
    keeps the current one current; [reset_view()] resets the current view
    and leaves the other alone, so resetting in 2D mode, then in 3D mode,
    and going back to the mode the scene was in amounts to
    [reset_view(True)].  Neither touches the model, the actors or the
    objects. *)
Theorem reset_view_both (w : world F) :
  let both := snd (reset_view true w) in
  fst (reset_view true w) = Ok tt
  /\ view_ortho (scene both) = view_reset_state (view_ortho (scene w))
  /\ view_perspective (scene both)
     = view_reset_state (view_perspective (scene w))
  /\ current_view (scene both) = current_view (scene w)
  /\ heap both = heap w
  /\ model (scene both) = model (scene w)
  /\ actors (scene both) = actors (scene w)
  /\ (mode_2d (scene w) = true ->
      view_perspective (scene (snd (reset_view false w)))
      = view_perspective (scene w))
  /\ (mode_2d (scene w) = false ->
      view_ortho (scene (snd (reset_view false w))) = view_ortho (scene w))
  /\ snd ((set_mode_2d true ;;; reset_view false ;;;
           set_mode_2d false ;;; reset_view false ;;;
           set_mode_2d (mode_2d (scene w))) w)
     = both.
Proof.
  destruct w as [h [md ac cx cy vo vp cv ini rd]].
  destruct cv; cbn; repeat split; try reflexivity; discriminate.
Qed.

End Reset.

End ResetView.
